(** * Crypto Data Aggregator Python SDK v2 (sdk/python/crypto_api_v2.py)

    A shallow embedding of the [CryptoAPI] client: query-string
    construction, request construction, and the handling of the ways
    [urllib.request.urlopen] can end (a 2xx response, an [HTTPError],
    a [URLError], another exception).

    Conventions.
    - A Python [str] is a [string] holding the UTF-8 bytes of the text;
      [urllib.parse.quote] encodes its argument to UTF-8 before it looks
      at it, so percent-encoding is a map over these bytes.
    - A Python [dict] is an association list in insertion order; a
      well-formed dict has no repeated key.
    - Python integers are [Z]; [str] and [int] are taken below the
      interpreter's limit on the number of digits they convert.
    - Exceptions are values: a call returns [Ok v] or [Raise e], together
      with the client as the call leaves it. *)

From Stdlib Require Import ZArith NArith List String Ascii Bool.
From Stdlib Require Import DecimalString.
Import ListNotations.
Open Scope string_scope.
Set Warnings "-register-all".

(* ================================================================== *)
(** ** Text helpers (methods of [str]) *)
(* ================================================================== *)

(** [c in s] for a one-character [c]. *)
Fixpoint mem_char (c : ascii) (s : string) : bool :=
  match s with
  | EmptyString => false
  | String d r => Ascii.eqb c d || mem_char c r
  end.

(** [s.replace(a, b)] for one-character [a] and [b]. *)
Fixpoint replace_char (a b : ascii) (s : string) : string :=
  match s with
  | EmptyString => EmptyString
  | String c r => String (if Ascii.eqb c a then b else c) (replace_char a b r)
  end.

(** [sep.join(l)]. *)
Fixpoint join (sep : string) (l : list string) : string :=
  match l with
  | [] => ""
  | [x] => x
  | x :: r => x ++ sep ++ join sep r
  end.

(** [''.join(l)]. *)
Fixpoint concat_str (l : list string) : string :=
  match l with
  | [] => ""
  | x :: r => x ++ concat_str r
  end.

(** The characters of a string. *)
Fixpoint chars (s : string) : list ascii :=
  match s with
  | EmptyString => []
  | String c r => c :: chars r
  end.

(** [s.split(sep)] for a one-character [sep]: never the empty list. *)
Fixpoint split_on (sep : ascii) (s : string) : list string :=
  match s with
  | EmptyString => [""]
  | String c r =>
      if Ascii.eqb c sep then "" :: split_on sep r
      else match split_on sep r with
           | [] => [String c ""]
           | w :: ws => String c w :: ws
           end
  end.

(** [s.partition(sep)] without the middle component: the text before the
    first [sep] and the text after it (all of [s] and [""] when there is
    none). *)
Fixpoint partition_on (sep : ascii) (s : string) : string * string :=
  match s with
  | EmptyString => ("", "")
  | String c r =>
      if Ascii.eqb c sep then ("", r)
      else let '(a, b) := partition_on sep r in (String c a, b)
  end.

(** [s.lower()] on ASCII letters; other bytes are left alone. *)
Definition lower_char (c : ascii) : ascii :=
  let n := N_of_ascii c in
  if ((65 <=? n) && (n <=? 90))%N then ascii_of_N (n + 32) else c.

Fixpoint lower (s : string) : string :=
  match s with
  | EmptyString => EmptyString
  | String c r => String (lower_char c) (lower r)
  end.

(** [str(n)] for an [int]. *)
Definition str_int (n : Z) : string := NilZero.string_of_int (Z.to_int n).

(* ================================================================== *)
(** ** urllib.parse: quote, quote_plus, urlencode *)
(* ================================================================== *)

Definition in_range (lo hi c : ascii) : bool :=
  ((N_of_ascii lo <=? N_of_ascii c) && (N_of_ascii c <=? N_of_ascii hi))%N.

(** [_ALWAYS_SAFE]: letters, digits and [_.-~]. *)
Definition always_safe (c : ascii) : bool :=
  in_range "A" "Z" c || in_range "a" "z" c || in_range "0" "9" c
  || mem_char c "_.-~".

Definition hex_digit (n : N) : ascii :=
  if (n <? 10)%N then ascii_of_N (48 + n) else ascii_of_N (55 + n).

(** ['%{:02X}'.format(b)]. *)
Definition percent_hex (c : ascii) : string :=
  let n := N_of_ascii c in
  String "%" (String (hex_digit (n / 16)) (String (hex_digit (n mod 16)) "")).

(** [_Quoter(safe).__missing__]: a byte is kept when it is always safe
    or listed in [safe], and written [%XX] otherwise. *)
Definition quoter (safe : string) (c : ascii) : string :=
  if always_safe c || mem_char c safe then String c "" else percent_hex c.

(** [quote(string, safe)]: the early returns of the library (empty input,
    input made of safe bytes only) give what the general path gives. *)
Definition quote (safe : string) (s : string) : string :=
  concat_str (map (quoter safe) (chars s)).

(** [quote_plus(string, safe)]. *)
Definition quote_plus (safe : string) (s : string) : string :=
  if negb (mem_char " " s) then quote safe s
  else replace_char " " "+" (quote (safe ++ " ") s).

(** What [quote_plus] with [safe=''] does to one byte. *)
Definition plus_quoter (c : ascii) : string :=
  if Ascii.eqb c " " then "+" else quoter "" c.

(** Values the SDK puts in a parameter mapping: [None], [int], [str]
    and [bool]. *)
Inductive pval : Type :=
| PNone
| PInt (n : Z)
| PStr (s : string)
| PBool (b : bool).

(** [str(v)]. *)
Definition py_str (v : pval) : string :=
  match v with
  | PNone => "None"
  | PInt n => str_int n
  | PStr s => s
  | PBool true => "True"
  | PBool false => "False"
  end.

Definition params : Type := list (string * pval).

(** One [k + '=' + v] element of [urlencode]. *)
Definition encode_pair (kv : string * pval) : string :=
  quote_plus "" (fst kv) ++ "=" ++ quote_plus "" (py_str (snd kv)).

(** [urllib.parse.urlencode(query)] on a dict, with its defaults
    ([doseq=False], [safe=''], [quote_via=quote_plus]). *)
Definition urlencode (query : params) : string :=
  join "&" (map encode_pair query).

(** [v is not None]. *)
Definition is_not_none (v : pval) : bool :=
  match v with PNone => false | _ => true end.

(** [CryptoAPI._build_query]. *)
Definition _build_query (ps : params) : string :=
  let filtered := filter (fun kv => is_not_none (snd kv)) ps in
  match filtered with
  | [] => ""
  | _ :: _ => "?" ++ urlencode filtered
  end.

(** The entries that survive the filter of [_build_query]. *)
Definition surviving (ps : params) : params :=
  filter (fun kv => is_not_none (snd kv)) ps.

(** The encoded key and value of an entry. *)
Definition encoded (kv : string * pval) : string * string :=
  (quote_plus "" (fst kv), quote_plus "" (py_str (snd kv))).

(** Reading a query string back: the [(key, value)] texts between the
    leading [?] and the [&] separators, each cut at its first [=]. *)
Definition query_pairs (q : string) : list (string * string) :=
  match q with
  | String "?" rest => map (partition_on "=") (split_on "&" rest)
  | _ => []
  end.

(** The characters a path-escaped text is made of: the always-safe
    ones, [/] and the [%] of an escape. *)
Definition path_char (c : ascii) : bool :=
  always_safe c || Ascii.eqb c "/" || Ascii.eqb c "%".

Fixpoint all_chars (p : ascii -> bool) (s : string) : bool :=
  match s with
  | EmptyString => true
  | String c r => p c && all_chars p r
  end.

(** Undoing [quote_plus]: [+] is a space and [%XX] is the byte [XX]. *)
Definition hex_value (c : ascii) : option N :=
  let n := N_of_ascii c in
  if in_range "0" "9" c then Some (n - 48)%N
  else if in_range "A" "F" c then Some (n - 55)%N
  else if in_range "a" "f" c then Some (n - 87)%N
  else None.

Fixpoint unquote_plus (s : string) : string :=
  match s with
  | EmptyString => EmptyString
  | String c r =>
      if Ascii.eqb c "+" then String " " (unquote_plus r)
      else if Ascii.eqb c "%" then
        match r with
        | String h (String l r') =>
            match hex_value h, hex_value l with
            | Some a, Some b => String (ascii_of_N (16 * a + b)) (unquote_plus r')
            | _, _ => String c (unquote_plus r)
            end
        | _ => String c (unquote_plus r)
        end
      else String c (unquote_plus r)
  end.

(* ================================================================== *)
(** ** Python values, dicts, exceptions *)
(* ================================================================== *)

(** What [json.loads] can return: [None], [bool], [int], [float] (kept
    as its literal), [str], [list] and [dict]. *)
Inductive json : Type :=
| JNull
| JBool (b : bool)
| JInt (n : Z)
| JFloat (literal : string)
| JStr (s : string)
| JList (l : list json)
| JDict (d : list (string * json)).

Definition dict (V : Type) : Type := list (string * V).

(** [d.get(k)]: [None] when the key is missing. *)
Fixpoint dict_lookup {V : Type} (d : dict V) (k : string) : option V :=
  match d with
  | [] => None
  | (k', v) :: r => if String.eqb k' k then Some v else dict_lookup r k
  end.

(** [d.get(k, default)]. *)
Definition dict_get {V : Type} (d : dict V) (k : string) (default : V) : V :=
  match dict_lookup d k with Some v => v | None => default end.

(** [d[k] = v]: an existing key keeps its place, a new one goes last. *)
Fixpoint dict_set {V : Type} (d : dict V) (k : string) (v : V) : dict V :=
  match d with
  | [] => [(k, v)]
  | (k', v') :: r =>
      if String.eqb k' k then (k', v) :: r else (k', v') :: dict_set r k v
  end.

(** Truthiness of an [Optional[str]]: neither [None] nor [''] . *)
Definition truthy_str (o : option string) : bool :=
  match o with
  | Some s => negb (String.eqb s "")
  | None => false
  end.

(** Truthiness of an [Optional[Dict]]: neither [None] nor [{}]. *)
Definition truthy_dict {V : Type} (o : option (dict V)) : bool :=
  match o with
  | Some (_ :: _) => true
  | _ => false
  end.

(** The exception classes of the SDK.  [RateLimitError] and
    [PaymentRequiredError] extend [CryptoAPIError]; the fields they
    inherit are fixed by their [super().__init__] calls and read back by
    [error_message], [error_code], [error_status], [error_details]. *)
Inductive api_error : Type :=
| CryptoAPIError (message : json) (code : json) (status : Z) (details : json)
| RateLimitError (retry_after : Z)
| PaymentRequiredError (payment_info : option string).

Definition error_message (e : api_error) : json :=
  match e with
  | CryptoAPIError m _ _ _ => m
  | RateLimitError _ => JStr "Rate limit exceeded"
  | PaymentRequiredError _ => JStr "Payment required"
  end.

Definition error_code (e : api_error) : json :=
  match e with
  | CryptoAPIError _ c _ _ => c
  | RateLimitError _ => JStr "RATE_LIMITED"
  | PaymentRequiredError _ => JStr "PAYMENT_REQUIRED"
  end.

Definition error_status (e : api_error) : Z :=
  match e with
  | CryptoAPIError _ _ s _ => s
  | RateLimitError _ => 429
  | PaymentRequiredError _ => 402
  end.

Definition error_details (e : api_error) : json :=
  match e with
  | CryptoAPIError _ _ _ d => d
  | _ => JNull
  end.

(** [CryptoAPIError(message, code)] with the defaults [status=0] and
    [details=None] of its constructor. *)
Definition CryptoAPIError_2 (message code : json) : api_error :=
  CryptoAPIError message code 0 JNull.

(** What a call can raise: an SDK exception, or a built-in exception the
    SDK does not catch ([ValueError] covers its subclasses
    [JSONDecodeError] and [UnicodeDecodeError]; [TimeoutError] is what
    the socket raises when the response does not arrive in time). *)
Inductive exn : Type :=
| SDK (e : api_error)
| ValueError
| AttributeError
| TimeoutError.

Inductive result (A : Type) : Type :=
| Ok (v : A)
| Raise (e : exn).
Arguments Ok {A} v.
Arguments Raise {A} e.

Definition bind {A B : Type} (r : result A) (k : A -> result B) : result B :=
  match r with
  | Ok v => k v
  | Raise e => Raise e
  end.

Notation "x <- r ;; k" := (bind r (fun x => k))
  (at level 61, r at next level, right associativity).

(* ================================================================== *)
(** ** The client *)
(* ================================================================== *)

Record RateLimitInfo : Type := mkRateLimitInfo {
  remaining : Z;
  limit : Z;
  reset_at : Z
}.

Record CryptoAPI : Type := mkCryptoAPI {
  base_url : string;
  api_key : option string;
  timeout : Z;
  last_rate_limit : option RateLimitInfo
}.

Definition BASE_URL : string := "https://crypto-data-aggregator.vercel.app".
Definition API_VERSION : string := "v2".

(** [CryptoAPI.__init__]. *)
Definition init (key url : option string) (tmo : Z) : CryptoAPI :=
  {| base_url := if truthy_str url then
                   match url with Some u => u | None => BASE_URL end
                 else BASE_URL;
     api_key := key;
     timeout := tmo;
     last_rate_limit := None |}.

(** [CryptoAPI.set_api_key]. *)
Definition set_api_key (self : CryptoAPI) (key : string) : CryptoAPI :=
  {| base_url := base_url self;
     api_key := Some key;
     timeout := timeout self;
     last_rate_limit := last_rate_limit self |}.

(** [CryptoAPI.get_rate_limit_info]. *)
Definition get_rate_limit_info (self : CryptoAPI) : option RateLimitInfo :=
  last_rate_limit self.

Definition set_last_rate_limit (self : CryptoAPI) (i : RateLimitInfo) : CryptoAPI :=
  {| base_url := base_url self;
     api_key := api_key self;
     timeout := timeout self;
     last_rate_limit := Some i |}.

(* ================================================================== *)
(** ** urllib.request: what is sent and how it can end *)
(* ================================================================== *)

(** The arguments of [urllib.request.Request(url, data, headers, method)]. *)
Record Request : Type := mkRequest {
  req_url : string;
  req_data : option string;
  req_headers : dict string;
  req_method : string
}.

(** Response headers ([http.client.HTTPMessage]): [get] compares names
    without regard to case and returns the first match. *)
Fixpoint header_get (h : list (string * string)) (name : string) : option string :=
  match h with
  | [] => None
  | (k, v) :: r =>
      if String.eqb (lower k) (lower name) then Some v else header_get r name
  end.

(** How lines 133-136 end.  [urlopen] returns a response (the status is
    then 2xx; [body] is what [response.read()] gives), raises
    [HTTPError] (any other final status: the code, the reason phrase,
    the headers and the body that [e.read()] gives), raises [URLError]
    ([str(e.reason)]: the library wraps in it the errors of connecting
    and sending), or lets another exception out, which no handler of
    [_request] catches: [TimeoutError] when the response does not
    arrive in time, [ValueError] when [Request] is given a URL without
    a scheme.  Not covered: a [response.read()] that fails after the
    headers have been received. *)
Inductive outcome : Type :=
| Response (status : Z) (headers : list (string * string)) (body : string)
| HTTPError (code : Z) (msg : string) (headers : list (string * string))
            (body : string)
| URLError (reason : string)
| OtherError (e : exn).

(** [urllib.request.Request(...)] followed by
    [urlopen(request, timeout=...)]. *)
Definition transport : Type := Request -> Z -> outcome.

(** [str(e)] for an [HTTPError]. *)
Definition http_error_str (code : Z) (msg : string) : string :=
  "HTTP Error " ++ str_int code ++ ": " ++ msg.

(** The interpreter's part: [int(s)] on a [str] ([None] when it raises
    [ValueError]), [json.loads(b.decode('utf-8'))] ([None] when decoding
    or parsing raises), and [json.dumps(d).encode('utf-8')]. *)
Class Runtime : Type := mkRuntime {
  int_of_str : string -> option Z;
  json_loads : string -> option json;
  json_dumps : dict json -> string
}.

Section Client.
Context {RT : Runtime}.

(** [int(s)] as a computation that may raise. *)
Definition py_int (s : string) : result Z :=
  match int_of_str s with
  | Some n => Ok n
  | None => Raise ValueError
  end.

(** The request that [_request] builds (lines 115-133). *)
Definition build_request (self : CryptoAPI) (endpoint method : string)
    (body : option (dict json)) (payment : option string) : Request :=
  let url := base_url self ++ "/api/" ++ API_VERSION ++ endpoint in
  let headers :=
    [("Accept", "application/json");
     ("Content-Type", "application/json");
     ("User-Agent", "CryptoAPI-SDK-Python/2.0")] in
  let headers :=
    if truthy_str (api_key self) then
      match api_key self with
      | Some k => dict_set headers "X-API-Key" k
      | None => headers
      end
    else headers in
  let headers :=
    if truthy_str payment then
      match payment with
      | Some p => dict_set headers "X-PAYMENT" p
      | None => headers
      end
    else headers in
  let data :=
    if truthy_dict body then
      match body with
      | Some b => Some (json_dumps b)
      | None => None
      end
    else None in
  {| req_url := url; req_data := data; req_headers := headers;
     req_method := method |}.

(** The rate-limit block of the success path (lines 138-147): the client
    after it, or the [ValueError] of a failed [int]. *)
Definition read_rate_limit (self : CryptoAPI) (headers : list (string * string))
  : result CryptoAPI :=
  let remaining := header_get headers "X-RateLimit-Remaining" in
  let limit := header_get headers "X-RateLimit-Limit" in
  let reset_at := header_get headers "X-RateLimit-Reset" in
  if truthy_str remaining && truthy_str limit then
    match remaining, limit with
    | Some rem, Some lim =>
        r <- py_int rem ;;
        l <- py_int lim ;;
        t <- (if truthy_str reset_at then
                match reset_at with
                | Some s => n <- py_int s ;; Ok (n * 1000)%Z
                | None => Ok 0%Z
                end
              else Ok 0%Z) ;;
        Ok (set_last_rate_limit self
              {| remaining := r; limit := l; reset_at := t |})
    | _, _ => Ok self
    end
  else Ok self.

(** The snapshot that the headers of a response describe: [None] when
    the remaining count or the limit is missing or empty. *)
Definition snapshot_of_headers (h : list (string * string))
  : result (option RateLimitInfo) :=
  match header_get h "X-RateLimit-Remaining", header_get h "X-RateLimit-Limit" with
  | Some rem, Some lim =>
      if negb (String.eqb rem "") && negb (String.eqb lim "") then
        r <- py_int rem ;;
        l <- py_int lim ;;
        t <- match header_get h "X-RateLimit-Reset" with
             | Some s => if String.eqb s "" then Ok 0%Z
                         else n <- py_int s ;; Ok (n * 1000)%Z
             | None => Ok 0%Z
             end ;;
        Ok (Some {| remaining := r; limit := l; reset_at := t |})
      else Ok None
  | _, _ => Ok None
  end.

Definition with_snapshot (self : CryptoAPI) (i : option RateLimitInfo)
  : CryptoAPI :=
  match i with
  | Some i => set_last_rate_limit self i
  | None => self
  end.

(** The [except urllib.error.HTTPError] handler (lines 151-170). *)
Definition on_http_error (code : Z) (msg : string)
    (headers : list (string * string)) (body : string) : exn :=
  let error_data :=
    match json_loads body with
    | Some v => v
    | None => JDict [("error", JStr (http_error_str code msg))]
    end in
  if (code =? 402)%Z then
    SDK (PaymentRequiredError (header_get headers "X-Payment-Required"))
  else if (code =? 429)%Z then
    match header_get headers "Retry-After" with
    | None => SDK (RateLimitError 60)
    | Some s =>
        match int_of_str s with
        | Some n => SDK (RateLimitError n)
        | None => ValueError
        end
    end
  else
    match error_data with
    | JDict d =>
        SDK (CryptoAPIError (dict_get d "error" (JStr "Request failed"))
                            (dict_get d "code" (JStr "UNKNOWN"))
                            code
                            (dict_get d "details" JNull))
    | _ => AttributeError
    end.

(** [CryptoAPI._request]: the value returned or the exception raised,
    and the client afterwards. *)
Definition _request (urlopen : transport) (self : CryptoAPI)
    (endpoint method : string) (body : option (dict json))
    (payment : option string) : result json * CryptoAPI :=
  let request := build_request self endpoint method body payment in
  match urlopen request (timeout self) with
  | Response _ headers rbody =>
      match read_rate_limit self headers with
      | Raise e => (Raise e, self)
      | Ok self' =>
          match json_loads rbody with
          | Some v => (Ok v, self')
          | None => (Raise ValueError, self')
          end
      end
  | HTTPError code msg headers ebody =>
      (Raise (on_http_error code msg headers ebody), self)
  | URLError reason =>
      (Raise (SDK (CryptoAPIError_2 (JStr ("Connection error: " ++ reason))
                                    (JStr "CONNECTION_ERROR"))), self)
  | OtherError e => (Raise e, self)
  end.

(** [CryptoAPI.get_coins]: the query string it builds ... *)
Definition get_coins_query (page per_page : Z) (order : string)
    (ids : option string) (sparkline : bool) : string :=
  _build_query
    [("page", PInt page);
     ("per_page", PInt per_page);
     ("order", PStr order);
     ("ids", match ids with Some s => PStr s | None => PNone end);
     ("sparkline",
      if sparkline then PStr (lower (py_str (PBool sparkline))) else PNone)].

(** ... and the call. *)
Definition get_coins (urlopen : transport) (self : CryptoAPI)
    (page per_page : Z) (order : string) (ids : option string)
    (sparkline : bool) : result json * CryptoAPI :=
  _request urlopen self
    ("/coins" ++ get_coins_query page per_page order ids sparkline)
    "GET" None None.

(** [CryptoAPI.get_coin]; [urllib.parse.quote(id)] has [safe='/']. *)
Definition get_coin (urlopen : transport) (self : CryptoAPI) (id : string)
  : result json * CryptoAPI :=
  _request urlopen self ("/coin/" ++ quote "/" id) "GET" None None.

(** [get_bitcoin_price]: [result.get('data', {}).get('price', 0)] on what
    a default client's [get_coin('bitcoin')] returns. *)
Definition get_bitcoin_price (urlopen : transport) : result json :=
  let api := init None None 30 in
  result <- fst (get_coin urlopen api "bitcoin") ;;
  match result with
  | JDict d =>
      match dict_get d "data" (JDict []) with
      | JDict data => Ok (dict_get data "price" (JInt 0))
      | _ => Raise AttributeError
      end
  | _ => Raise AttributeError
  end.

End Client.

(** The defaults of [get_coins]. *)
Definition get_coins_default_page : Z := 1.
Definition get_coins_default_per_page : Z := 100.
Definition get_coins_default_order : string := "market_cap_desc".

(* ================================================================== *)
(** ** Vocabulary of the statements *)
(* ================================================================== *)

(** A header that is sent only when its value is truthy. *)
Definition optional_header (name : string) (value : option string)
  : dict string :=
  match value with
  | Some v => if String.eqb v "" then [] else [(name, v)]
  | None => []
  end.

(** A client without a key: [self] with [api_key = None]. *)
Definition without_key (self : CryptoAPI) : CryptoAPI :=
  {| base_url := base_url self;
     api_key := None;
     timeout := timeout self;
     last_rate_limit := last_rate_limit self |}.

(** [v[k]] on a decoded value: [None] when [v] is not a dict or has no
    such key. *)
Definition item (v : json) (k : string) : option json :=
  match v with
  | JDict d => dict_lookup d k
  | _ => None
  end.

(** [v['data']['price']]. *)
Definition data_price (v : json) : option json :=
  match item v "data" with
  | Some d => item d "price"
  | None => None
  end.

(* ================================================================== *)
(** ** A reference runtime

    A concrete [Runtime] for closed examples: [int] on ASCII text, and
    JSON on ASCII text without [\u] escapes and without the constants
    [NaN] and [Infinity].  On such text it follows the interpreter.  It
    rejects [\u] escapes and the constants, which [json.loads] accepts,
    and it keeps bytes above 127 inside strings without checking that
    they are UTF-8, which [decode('utf-8')] does check. *)
(* ================================================================== *)

Module Ref.

Definition dquote : ascii := "034"%char.
Definition backslash : ascii := "092"%char.

Definition is_digit (c : ascii) : bool := in_range "0" "9" c.

Definition digit_value (c : ascii) : Z := Z.of_N (N_of_ascii c) - 48.

(** Whitespace for [int]: what [str.isspace] accepts below 128. *)
Definition is_space (c : ascii) : bool :=
  let n := N_of_ascii c in
  (((9 <=? n) && (n <=? 13)) || ((28 <=? n) && (n <=? 32)))%N.

Fixpoint lstrip (s : string) : string :=
  match s with
  | String c r => if is_space c then lstrip r else s
  | EmptyString => EmptyString
  end.

Fixpoint rstrip (s : string) : string :=
  match s with
  | EmptyString => EmptyString
  | String c r =>
      match rstrip r with
      | EmptyString => if is_space c then EmptyString else String c EmptyString
      | r' => String c r'
      end
  end.

(** Decimal digits with single underscores between them. *)
Fixpoint digits (s : string) (acc : Z) (after_digit : bool) : option Z :=
  match s with
  | EmptyString => if after_digit then Some acc else None
  | String c r =>
      if is_digit c then digits r (10 * acc + digit_value c)%Z true
      else if Ascii.eqb c "_" && after_digit then digits r acc false
      else None
  end.

(** [int(s)]. *)
Definition parse_int (s : string) : option Z :=
  match rstrip (lstrip s) with
  | String "-" r => option_map Z.opp (digits r 0%Z false)
  | String "+" r => digits r 0%Z false
  | r => digits r 0%Z false
  end.

(** JSON whitespace. *)
Definition is_ws (c : ascii) : bool :=
  let n := N_of_ascii c in
  ((n =? 32) || (n =? 9) || (n =? 10) || (n =? 13))%N.

Fixpoint skip_ws (s : string) : string :=
  match s with
  | String c r => if is_ws c then skip_ws r else s
  | EmptyString => EmptyString
  end.

(** The longest prefix made of characters satisfying [p], and the rest. *)
Fixpoint span (p : ascii -> bool) (s : string) : string * string :=
  match s with
  | EmptyString => ("", "")
  | String c r =>
      if p c then let '(a, b) := span p r in (String c a, b) else ("", s)
  end.

Fixpoint decimal (s : string) (acc : Z) : Z :=
  match s with
  | EmptyString => acc
  | String c r => decimal r (10 * acc + digit_value c)%Z
  end.

(** If [s] starts with [prefix], what follows it. *)
Fixpoint strip_prefix (prefix s : string) : option string :=
  match prefix, s with
  | EmptyString, _ => Some s
  | String a p, String b r => if Ascii.eqb a b then strip_prefix p r else None
  | _, EmptyString => None
  end.

(** A JSON number at the head of [s]: an [int] when it has neither a
    fraction nor an exponent, a [float] otherwise. *)
Definition parse_number (s : string) : option (json * string) :=
  let '(sign, s1) :=
    match s with String "-" r => ("-", r) | _ => ("", s) end in
  let '(ip, s2) := span is_digit s1 in
  match ip with
  | EmptyString => None
  | String "0" (String _ _) => None
  | _ =>
      let frac :=
        match s2 with
        | String "." r =>
            let '(fp, s3) := span is_digit r in
            match fp with
            | EmptyString => None
            | _ => Some ("." ++ fp, s3)
            end
        | _ => Some ("", s2)
        end in
      match frac with
      | None => None
      | Some (fp, s3) =>
          let expo :=
            match s3 with
            | String e r =>
                if Ascii.eqb e "e" || Ascii.eqb e "E" then
                  let '(sg, r1) :=
                    match r with
                    | String "+" r' => ("+", r')
                    | String "-" r' => ("-", r')
                    | _ => ("", r)
                    end in
                  let '(ep, s4) := span is_digit r1 in
                  match ep with
                  | EmptyString => None
                  | _ => Some (String e (sg ++ ep), s4)
                  end
                else Some ("", s3)
            | EmptyString => Some ("", s3)
            end in
          match expo with
          | None => None
          | Some (ep, s4) =>
              match fp, ep with
              | EmptyString, EmptyString =>
                  let n := decimal ip 0%Z in
                  Some (JInt (if String.eqb sign "-" then - n else n)%Z, s4)
              | _, _ => Some (JFloat (sign ++ ip ++ fp ++ ep), s4)
              end
          end
      end
  end.

(** The text of a string literal after its opening quote, up to the
    closing quote. *)
Fixpoint parse_string (s : string) : option (string * string) :=
  match s with
  | EmptyString => None
  | String c r =>
      if Ascii.eqb c dquote then Some ("", r)
      else if Ascii.eqb c backslash then
        match r with
        | String e r' =>
            let unescaped :=
              if Ascii.eqb e dquote then Some dquote
              else if Ascii.eqb e backslash then Some backslash
              else if Ascii.eqb e "/" then Some "/"%char
              else if Ascii.eqb e "b" then Some "008"%char
              else if Ascii.eqb e "f" then Some "012"%char
              else if Ascii.eqb e "n" then Some "010"%char
              else if Ascii.eqb e "r" then Some "013"%char
              else if Ascii.eqb e "t" then Some "009"%char
              else None in
            match unescaped, parse_string r' with
            | Some u, Some (t, rest) => Some (String u t, rest)
            | _, _ => None
            end
        | EmptyString => None
        end
      else if (N_of_ascii c <? 32)%N then None
      else
        match parse_string r with
        | Some (t, rest) => Some (String c t, rest)
        | None => None
        end
  end.

(** Recursive descent over the value grammar; [fuel] bounds the number
    of values and separators read. *)
Fixpoint parse_value (fuel : nat) (s : string) : option (json * string) :=
  match fuel with
  | O => None
  | S fuel =>
      match skip_ws s with
      | EmptyString => None
      | String c r =>
          if Ascii.eqb c dquote then
            match parse_string r with
            | Some (t, rest) => Some (JStr t, rest)
            | None => None
            end
          else if Ascii.eqb c "[" then
            match skip_ws r with
            | String "]" rest => Some (JList [], rest)
            | _ =>
                match parse_elements fuel r with
                | Some (l, rest) => Some (JList l, rest)
                | None => None
                end
            end
          else if Ascii.eqb c "{" then
            match skip_ws r with
            | String "}" rest => Some (JDict [], rest)
            | _ =>
                match parse_members fuel r [] with
                | Some (d, rest) => Some (JDict d, rest)
                | None => None
                end
            end
          else if Ascii.eqb c "n" then
            option_map (pair JNull) (strip_prefix "ull" r)
          else if Ascii.eqb c "t" then
            option_map (pair (JBool true)) (strip_prefix "rue" r)
          else if Ascii.eqb c "f" then
            option_map (pair (JBool false)) (strip_prefix "alse" r)
          else parse_number (String c r)
      end
  end

with parse_elements (fuel : nat) (s : string) : option (list json * string) :=
  match fuel with
  | O => None
  | S fuel =>
      match parse_value fuel s with
      | Some (v, r) =>
          match skip_ws r with
          | String "," r' =>
              match parse_elements fuel r' with
              | Some (l, rest) => Some (v :: l, rest)
              | None => None
              end
          | String "]" rest => Some ([v], rest)
          | _ => None
          end
      | None => None
      end
  end

with parse_members (fuel : nat) (s : string) (acc : dict json)
  : option (dict json * string) :=
  match fuel with
  | O => None
  | S fuel =>
      match skip_ws s with
      | String c r =>
          if Ascii.eqb c dquote then
            match parse_string r with
            | Some (k, r1) =>
                match skip_ws r1 with
                | String ":" r2 =>
                    match parse_value fuel r2 with
                    | Some (v, r3) =>
                        let acc := dict_set acc k v in
                        match skip_ws r3 with
                        | String "," r4 => parse_members fuel r4 acc
                        | String "}" rest => Some (acc, rest)
                        | _ => None
                        end
                    | None => None
                    end
                | _ => None
                end
            | None => None
            end
          else None
      | EmptyString => None
      end
  end.

(** [json.loads] on the bytes of a body. *)
Definition loads (s : string) : option json :=
  match parse_value (S (String.length s)) s with
  | Some (v, rest) =>
      match skip_ws rest with
      | EmptyString => Some v
      | _ => None
      end
  | None => None
  end.

(** A string literal: quotes and backslashes escaped.  Control
    characters and bytes above 127, which [json.dumps] writes as
    escapes, are written as they are. *)
Fixpoint escape (s : string) : string :=
  match s with
  | EmptyString => EmptyString
  | String c r =>
      if Ascii.eqb c dquote || Ascii.eqb c backslash
      then String backslash (String c (escape r))
      else String c (escape r)
  end.

Definition literal (s : string) : string :=
  String dquote (escape s ++ String dquote "").

(** [json.dumps] with its default separators. *)
Fixpoint dumps (v : json) : string :=
  match v with
  | JNull => "null"
  | JBool true => "true"
  | JBool false => "false"
  | JInt n => str_int n
  | JFloat l => l
  | JStr s => literal s
  | JList l => "[" ++ join ", " (map dumps l) ++ "]"
  | JDict d =>
      "{" ++ join ", " (map (fun kv => literal (fst kv) ++ ": " ++ dumps (snd kv)) d)
          ++ "}"
  end.

Definition dumps_dict (d : dict json) : string := dumps (JDict d).

#[export] Instance runtime : Runtime :=
  {| int_of_str := parse_int;
     json_loads := loads;
     json_dumps := dumps_dict |}.

End Ref.

(* ================================================================== *)
(** ** Sample clients, bodies and servers *)
(* ================================================================== *)

(** [CryptoAPI()]. *)
Definition demo_client : CryptoAPI := init None None 30.

Definition quoted (s : string) : string :=
  String Ref.dquote (s ++ String Ref.dquote "").

(** The body [{"data":{"price":65000}}]. *)
Definition bitcoin_body : string :=
  "{" ++ quoted "data" ++ ":{" ++ quoted "price" ++ ":65000}}".

(** The body [{"error": "Coin not found", "code": "NOT_FOUND"}]. *)
Definition not_found_body : string :=
  "{" ++ quoted "error" ++ ": " ++ quoted "Coin not found" ++ ", "
      ++ quoted "code" ++ ": " ++ quoted "NOT_FOUND" ++ "}".

Definition quota_headers : list (string * string) :=
  [("X-RateLimit-Remaining", "42");
   ("X-RateLimit-Limit", "100");
   ("X-RateLimit-Reset", "1700000000")].

(** Answers 200 with rate-limit headers and the body [{}]. *)
Definition quota_server : transport :=
  fun _ _ => Response 200 quota_headers "{}".

Definition busy_headers : list (string * string) :=
  [("X-RateLimit-Remaining", "0");
   ("X-RateLimit-Limit", "100");
   ("X-RateLimit-Reset", "1700000060");
   ("Retry-After", "45")].

(** Answers 429 with rate-limit headers and [Retry-After: 45]. *)
Definition busy_server : transport :=
  fun _ _ => HTTPError 429 "Too Many Requests" busy_headers "".

Definition later_headers : list (string * string) :=
  [("Retry-After", "Wed, 21 Oct 2015 07:28:00 GMT")].

(** Answers 429 with [Retry-After] as an HTTP date. *)
Definition later_server : transport :=
  fun _ _ => HTTPError 429 "Too Many Requests" later_headers "".

(** Answers 500 with the JSON body [[]]. *)
Definition broken_server : transport :=
  fun _ _ => HTTPError 500 "Internal Server Error" [] "[]".

(** Answers 500 with an HTML body. *)
Definition html_server : transport :=
  fun _ _ => HTTPError 500 "Internal Server Error" [] "<html>oops</html>".

(** Answers 404 with a JSON error payload. *)
Definition missing_server : transport :=
  fun _ _ => HTTPError 404 "Not Found" [] not_found_body.

(** Answers 402 with a payment header. *)
Definition paywall_server : transport :=
  fun _ _ => HTTPError 402 "Payment Required"
               [("x-payment-required", "x402 0.01 USDC")] "{}".

(** No network. *)
Definition offline : transport := fun _ _ => URLError "timed out".

(** The request is sent and no response arrives in time. *)
Definition stalled : transport := fun _ _ => OtherError TimeoutError.

(** Answers 200 with the bitcoin body and a remaining count that is not
    a number. *)
Definition garbled_coin_server : transport :=
  fun _ _ => Response 200
               [("X-RateLimit-Remaining", "many"); ("X-RateLimit-Limit", "100")]
               bitcoin_body.

(** Answers [GET {BASE_URL}/api/v2/coin/bitcoin] with the bitcoin body
    and anything else with 404. *)
Definition coin_server : transport :=
  fun r _ =>
    if String.eqb (req_url r) (BASE_URL ++ "/api/v2/coin/bitcoin")
       && String.eqb (req_method r) "GET"
    then Response 200 [] bitcoin_body
    else HTTPError 404 "Not Found" [] not_found_body.

(** Answers 200 with a remaining count that is not a number. *)
Definition garbled_server : transport :=
  fun _ _ => Response 200
               [("X-RateLimit-Remaining", "many"); ("X-RateLimit-Limit", "100")]
               "{}".

(** Answers 200 with a remaining count, a limit and an HTML body. *)
Definition html_ok_server : transport :=
  fun _ _ => Response 200
               [("X-RateLimit-Remaining", "7"); ("X-RateLimit-Limit", "100")]
               "<html>ok</html>".

(** Answers 200 with the body [{}] and no rate-limit header. *)
Definition plain_server : transport :=
  fun _ _ => Response 200 [("Content-Type", "application/json")] "{}".

(** Answers 429 with the headers of [busy_server] and another body. *)
Definition busy_server_verbose : transport :=
  fun _ _ => HTTPError 429 "Slow Down" busy_headers not_found_body.

(* ================================================================== *)
(** ** The other operations *)
(* ================================================================== *)

(** An [Optional[str]] argument as a parameter value. *)
Definition opt_str (o : option string) : pval :=
  match o with
  | Some s => PStr s
  | None => PNone
  end.

(** The characters a query string is made of: the always-safe ones, the
    [%] of an escape, the [+] of a space and the separators [?], [&]
    and [=]. *)
Definition query_char (c : ascii) : bool :=
  always_safe c || mem_char c "%+?&=".

Section Endpoints.
Context {RT : Runtime}.

(** [CryptoAPI.get_global]. *)
Definition get_global (urlopen : transport) (self : CryptoAPI)
  : result json * CryptoAPI :=
  _request urlopen self "/global" "GET" None None.

(** [CryptoAPI.get_ticker]. *)
Definition get_ticker (urlopen : transport) (self : CryptoAPI)
    (symbol symbols : option string) : result json * CryptoAPI :=
  let query :=
    _build_query [("symbol", opt_str symbol); ("symbols", opt_str symbols)] in
  _request urlopen self ("/ticker" ++ query) "GET" None None.

(** [CryptoAPI.get_historical]. *)
Definition get_historical (urlopen : transport) (self : CryptoAPI)
    (id : string) (days : Z) : result json * CryptoAPI :=
  let query := _build_query [("days", PInt days)] in
  _request urlopen self ("/historical/" ++ quote "/" id ++ query)
           "GET" None None.

(** [CryptoAPI.get_defi]. *)
Definition get_defi (urlopen : transport) (self : CryptoAPI)
    (limit : Z) (category : option string) : result json * CryptoAPI :=
  let query :=
    _build_query [("limit", PInt limit); ("category", opt_str category)] in
  _request urlopen self ("/defi" ++ query) "GET" None None.

(** [CryptoAPI.get_gas]. *)
Definition get_gas (urlopen : transport) (self : CryptoAPI)
    (network : string) : result json * CryptoAPI :=
  let query := _build_query [("network", PStr network)] in
  _request urlopen self ("/gas" ++ query) "GET" None None.

(** [CryptoAPI.get_trending]. *)
Definition get_trending (urlopen : transport) (self : CryptoAPI)
  : result json * CryptoAPI :=
  _request urlopen self "/trending" "GET" None None.

(** [CryptoAPI.search]. *)
Definition search (urlopen : transport) (self : CryptoAPI) (query : string)
  : result json * CryptoAPI :=
  _request urlopen self ("/search?q=" ++ quote "/" query) "GET" None None.

(** [CryptoAPI.get_volatility]. *)
Definition get_volatility (urlopen : transport) (self : CryptoAPI)
    (ids : option string) : result json * CryptoAPI :=
  let query := _build_query [("ids", opt_str ids)] in
  _request urlopen self ("/volatility" ++ query) "GET" None None.

(** [CryptoAPI.batch]. *)
Definition batch (urlopen : transport) (self : CryptoAPI)
    (requests : list json) : result json * CryptoAPI :=
  _request urlopen self "/batch" "POST"
           (Some [("requests", JList requests)]) None.

(** The body that [graphql] builds. *)
Definition graphql_body (query : string) (variables : option (dict json))
  : dict json :=
  let body := [("query", JStr query)] in
  if truthy_dict variables then
    match variables with
    | Some v => dict_set body "variables" (JDict v)
    | None => body
    end
  else body.

(** [CryptoAPI.graphql]. *)
Definition graphql (urlopen : transport) (self : CryptoAPI)
    (query : string) (variables : option (dict json))
  : result json * CryptoAPI :=
  _request urlopen self "/graphql" "POST"
           (Some (graphql_body query variables)) None.

(** [CryptoAPI.list_webhooks]. *)
Definition list_webhooks (urlopen : transport) (self : CryptoAPI)
  : result json * CryptoAPI :=
  _request urlopen self "/webhooks" "GET" None None.

(** The body that [create_webhook] builds. *)
Definition create_webhook_body (url : string) (events : list string)
    (secret : option string) : dict json :=
  let body := [("url", JStr url); ("events", JList (map JStr events))] in
  if truthy_str secret then
    match secret with
    | Some s => dict_set body "secret" (JStr s)
    | None => body
    end
  else body.

(** [CryptoAPI.create_webhook]. *)
Definition create_webhook (urlopen : transport) (self : CryptoAPI)
    (url : string) (events : list string) (secret : option string)
  : result json * CryptoAPI :=
  _request urlopen self "/webhooks" "POST"
           (Some (create_webhook_body url events secret)) None.

(** [CryptoAPI.delete_webhook]. *)
Definition delete_webhook (urlopen : transport) (self : CryptoAPI)
    (id : string) : result json * CryptoAPI :=
  _request urlopen self ("/webhooks?id=" ++ quote "/" id) "DELETE" None None.

(** [CryptoAPI.health]. *)
Definition health (urlopen : transport) (self : CryptoAPI)
  : result json * CryptoAPI :=
  _request urlopen self "/health" "GET" None None.

(** [CryptoAPI.info]. *)
Definition info (urlopen : transport) (self : CryptoAPI)
  : result json * CryptoAPI :=
  _request urlopen self "" "GET" None None.

(** [CryptoAPI.openapi]. *)
Definition openapi (urlopen : transport) (self : CryptoAPI)
  : result json * CryptoAPI :=
  _request urlopen self "/openapi.json" "GET" None None.

(** [get_ethereum_price]. *)
Definition get_ethereum_price (urlopen : transport) : result json :=
  let api := init None None 30 in
  result <- fst (get_coin urlopen api "ethereum") ;;
  match result with
  | JDict d =>
      match dict_get d "data" (JDict []) with
      | JDict data => Ok (dict_get data "price" (JInt 0))
      | _ => Raise AttributeError
      end
  | _ => Raise AttributeError
  end.

(** [get_top_coins]: [get_coins(per_page=limit)] with the other
    arguments at their defaults, then [result.get('data', [])]. *)
Definition get_top_coins (urlopen : transport) (limit : Z) : result json :=
  let api := init None None 30 in
  result <- fst (get_coins urlopen api get_coins_default_page limit
                   get_coins_default_order None false) ;;
  match result with
  | JDict d => Ok (dict_get d "data" (JList []))
  | _ => Raise AttributeError
  end.

End Endpoints.

(** The default [limit] of [get_top_coins]. *)
Definition get_top_coins_default_limit : Z := 10.

(* ================================================================== *)
(** * Properties *)
(* ================================================================== *)

(** ** Strings *)

Lemma mem_char_app (c : ascii) (a b : string) :
  mem_char c (a ++ b) = mem_char c a || mem_char c b.
Proof.
  induction a as [|x a IH]; simpl; [reflexivity|].
  now rewrite IH, orb_assoc.
Qed.

Lemma mem_char_concat (c : ascii) (l : list string) :
  (forall x, In x l -> mem_char c x = false) ->
  mem_char c (concat_str l) = false.
Proof.
  induction l as [|x l IH]; intros H; simpl; [reflexivity|].
  rewrite mem_char_app, (H x (or_introl eq_refl)); simpl.
  apply IH. intros y Hy. apply H. now right.
Qed.

Lemma replace_char_app (a b : ascii) (s t : string) :
  replace_char a b (s ++ t) = replace_char a b s ++ replace_char a b t.
Proof. induction s as [|x s IH]; simpl; [reflexivity | now rewrite IH]. Qed.

Lemma split_on_absent (sep : ascii) (s : string) :
  mem_char sep s = false -> split_on sep s = [s].
Proof.
  induction s as [|c s IH]; simpl; intros H; [reflexivity|].
  apply orb_false_iff in H as [Hc Hs].
  rewrite Ascii.eqb_sym, Hc, (IH Hs). reflexivity.
Qed.

Lemma split_on_cut (sep : ascii) (a b : string) :
  mem_char sep a = false ->
  split_on sep (a ++ String sep b) = a :: split_on sep b.
Proof.
  induction a as [|c a IH]; simpl; intros H.
  - now rewrite Ascii.eqb_refl.
  - apply orb_false_iff in H as [Hc Ha].
    rewrite Ascii.eqb_sym, Hc, (IH Ha). reflexivity.
Qed.

Lemma partition_on_cut (sep : ascii) (a b : string) :
  mem_char sep a = false ->
  partition_on sep (a ++ String sep b) = (a, b).
Proof.
  induction a as [|c a IH]; simpl; intros H.
  - now rewrite Ascii.eqb_refl.
  - apply orb_false_iff in H as [Hc Ha].
    rewrite Ascii.eqb_sym, Hc, (IH Ha). reflexivity.
Qed.

(** Splitting undoes joining when no element holds the separator. *)
Lemma split_on_join (sep : ascii) (l : list string) :
  l <> [] ->
  (forall x, In x l -> mem_char sep x = false) ->
  split_on sep (join (String sep "") l) = l.
Proof.
  induction l as [|x l IH]; intros Hne H; [congruence|].
  destruct l as [|y l].
  - simpl. apply split_on_absent. apply H. now left.
  - change (join (String sep "") (x :: y :: l))
      with (x ++ String sep (join (String sep "") (y :: l))).
    rewrite split_on_cut by (apply H; now left).
    f_equal. apply IH; [discriminate|].
    intros z Hz. apply H. now right.
Qed.

(** ** Percent-encoding *)

Ltac each_byte c :=
  destruct c as [[] [] [] [] [] [] [] []].

Lemma quoter_space_replaced (c : ascii) :
  replace_char " " "+" (quoter " " c) = plus_quoter c.
Proof. each_byte c; reflexivity. Qed.

Lemma quoter_no_space (c : ascii) :
  Ascii.eqb c " " = false -> plus_quoter c = quoter "" c.
Proof. intros H. unfold plus_quoter. now rewrite H. Qed.

Lemma quote_plus_bytes (s : string) :
  quote_plus "" s = concat_str (map plus_quoter (chars s)).
Proof.
  unfold quote_plus, quote.
  destruct (mem_char " " s) eqn:Hsp; simpl.
  - clear Hsp. induction s as [|c s IH]; simpl; [reflexivity|].
    now rewrite replace_char_app, quoter_space_replaced, IH.
  - induction s as [|c s IH]; simpl in *; [reflexivity|].
    apply orb_false_iff in Hsp as [Hc Hs].
    rewrite (IH Hs), quoter_no_space; [reflexivity|].
    now rewrite Ascii.eqb_sym.
Qed.

Lemma plus_quoter_no_amp (c : ascii) : mem_char "&" (plus_quoter c) = false.
Proof. each_byte c; reflexivity. Qed.

Lemma plus_quoter_no_eq (c : ascii) : mem_char "=" (plus_quoter c) = false.
Proof. each_byte c; reflexivity. Qed.

Lemma quote_plus_no_amp (s : string) : mem_char "&" (quote_plus "" s) = false.
Proof.
  rewrite quote_plus_bytes. apply mem_char_concat.
  intros x Hx. apply in_map_iff in Hx as [c [<- _]]. apply plus_quoter_no_amp.
Qed.

Lemma quote_plus_no_eq (s : string) : mem_char "=" (quote_plus "" s) = false.
Proof.
  rewrite quote_plus_bytes. apply mem_char_concat.
  intros x Hx. apply in_map_iff in Hx as [c [<- _]]. apply plus_quoter_no_eq.
Qed.

Lemma unquote_plus_step (c : ascii) (t : string) :
  unquote_plus (plus_quoter c ++ t) = String c (unquote_plus t).
Proof. each_byte c; reflexivity. Qed.

(** [quote_plus] loses nothing: decoding gives the text back ... *)
Lemma unquote_quote_plus (s : string) : unquote_plus (quote_plus "" s) = s.
Proof.
  rewrite quote_plus_bytes.
  induction s as [|c s IH]; simpl; [reflexivity|].
  now rewrite unquote_plus_step, IH.
Qed.

(** ... so distinct texts have distinct encodings. *)
Lemma quote_plus_inj (s t : string) :
  quote_plus "" s = quote_plus "" t -> s = t.
Proof.
  intros H. rewrite <- (unquote_quote_plus s), <- (unquote_quote_plus t).
  now rewrite H.
Qed.

(** ** Query strings *)

Lemma encode_pair_no_amp (kv : string * pval) :
  mem_char "&" (encode_pair kv) = false.
Proof.
  unfold encode_pair. rewrite !mem_char_app, !quote_plus_no_amp. reflexivity.
Qed.

Lemma partition_encode_pair (kv : string * pval) :
  partition_on "=" (encode_pair kv) = encoded kv.
Proof.
  unfold encode_pair, encoded. simpl append.
  apply partition_on_cut, quote_plus_no_eq.
Qed.

Lemma build_query_unfold (ps : params) :
  _build_query ps =
  match surviving ps with
  | [] => ""
  | _ :: _ => String "?" (join "&" (map encode_pair (surviving ps)))
  end.
Proof. reflexivity. Qed.

(** Reading back what [_build_query] wrote gives the surviving entries,
    encoded, in their order. *)
Lemma query_pairs_build_query (ps : params) :
  query_pairs (_build_query ps) = map encoded (surviving ps).
Proof.
  rewrite build_query_unfold.
  destruct (surviving ps) as [|kv l] eqn:E; [reflexivity|].
  unfold query_pairs.
  rewrite split_on_join.
  - rewrite map_map. apply map_ext. intros a. apply partition_encode_pair.
  - discriminate.
  - intros x Hx. apply in_map_iff in Hx as [a [<- _]].
    apply encode_pair_no_amp.
Qed.

Lemma count_occ_map_inj {A B : Type}
    (dA : forall x y : A, {x = y} + {x <> y})
    (dB : forall x y : B, {x = y} + {x <> y})
    (f : A -> B) (l : list A) (a : A) :
  (forall x y, f x = f y -> x = y) ->
  count_occ dB (map f l) (f a) = count_occ dA l a.
Proof.
  intros Hinj. induction l as [|x l IH]; simpl; [reflexivity|].
  destruct (dB (f x) (f a)) as [E|N], (dA x a) as [E'|N'].
  - now rewrite IH.
  - exfalso. apply N'. now apply Hinj.
  - exfalso. apply N. now rewrite E'.
  - exact IH.
Qed.

Lemma keys_of_encoded (l : params) :
  map fst (map encoded l) = map (quote_plus "") (map fst l).
Proof. rewrite !map_map. reflexivity. Qed.

Lemma surviving_in (ps : params) (k : string) (v : pval) :
  In (k, v) (surviving ps) <-> In (k, v) ps /\ v <> PNone.
Proof.
  unfold surviving. rewrite filter_In. simpl.
  split; intros [H1 H2]; split; try assumption.
  - intros ->. discriminate.
  - destruct v; [congruence | reflexivity ..].
Qed.

Lemma NoDup_keys_filter (f : string * pval -> bool) (ps : params) :
  NoDup (map fst ps) -> NoDup (map fst (filter f ps)).
Proof.
  induction ps as [|kv ps IH]; simpl; intros H; [constructor|].
  inversion H as [|x l Hnotin Hnd]; subst.
  destruct (f kv); [|now apply IH].
  simpl. constructor; [|now apply IH].
  intros Hin. apply Hnotin.
  apply in_map_iff in Hin as [a [Ha Hin]].
  apply filter_In in Hin as [Hin _].
  apply in_map_iff. now exists a.
Qed.

(** In a dict a key has one value. *)
Lemma dict_key_unique {V : Type} (ps : list (string * V)) (k : string) (v w : V) :
  NoDup (map fst ps) -> In (k, v) ps -> In (k, w) ps -> v = w.
Proof.
  induction ps as [|[k' u] ps IH]; simpl; intros Hnd Hv Hw; [contradiction|].
  inversion Hnd as [|x l Hnotin Hnd']; subst.
  destruct Hv as [Hv|Hv], Hw as [Hw|Hw].
  - congruence.
  - inversion Hv; subst. exfalso. apply Hnotin.
    apply in_map_iff. now exists (k, w).
  - inversion Hw; subst. exfalso. apply Hnotin.
    apply in_map_iff. now exists (k, v).
  - now apply IH.
Qed.

(** An encoded key occurs among the keys of the query as often as the
    key occurs among the surviving entries. *)
Lemma count_query_key (ps : params) (k : string) :
  count_occ string_dec (map fst (query_pairs (_build_query ps))) (quote_plus "" k)
  = count_occ string_dec (map fst (surviving ps)) k.
Proof.
  rewrite query_pairs_build_query, keys_of_encoded.
  apply count_occ_map_inj. apply quote_plus_inj.
Qed.

(** C1. For a parameter dict (no repeated key), [_build_query] gives the
    empty string when no entry has a value other than [None], and
    otherwise [?] followed by the [&]-joined encoded pairs of the entries
    with a value, in the order of the dict; read back, the query holds
    exactly those pairs, so a key with value [None] occurs in no pair and
    a key with a value occurs in exactly one pair, percent-encoded, next
    to its encoded value. *)
Theorem build_query_spec (ps : params) :
  NoDup (map fst ps) ->
  (surviving ps = [] -> _build_query ps = "") /\
  (surviving ps <> [] ->
     _build_query ps = "?" ++ join "&" (map encode_pair (surviving ps))) /\
  query_pairs (_build_query ps) = map encoded (surviving ps) /\
  (forall k, In (k, PNone) ps ->
     count_occ string_dec (map fst (query_pairs (_build_query ps)))
               (quote_plus "" k) = 0) /\
  (forall k v, In (k, v) ps -> v <> PNone ->
     count_occ string_dec (map fst (query_pairs (_build_query ps)))
               (quote_plus "" k) = 1 /\
     In (quote_plus "" k, quote_plus "" (py_str v))
        (query_pairs (_build_query ps))).
Proof.
  intros Hnd. repeat split.
  - intros E. rewrite build_query_unfold, E. reflexivity.
  - intros Hne. rewrite build_query_unfold.
    destruct (surviving ps); [congruence | reflexivity].
  - apply query_pairs_build_query.
  - intros k Hk. rewrite count_query_key.
    apply count_occ_not_In. intros Hin.
    apply in_map_iff in Hin as [[k' v] [Hk' Hin]]. simpl in Hk'. subst k'.
    apply surviving_in in Hin as [Hin Hv].
    apply Hv. now apply (dict_key_unique ps k v PNone).
  - rewrite count_query_key.
    apply NoDup_count_occ'.
    + now apply NoDup_keys_filter.
    + apply in_map_iff. exists (k, v). split; [reflexivity|].
      now apply surviving_in.
  - rewrite query_pairs_build_query.
    apply in_map_iff. exists (k, v). split; [reflexivity|].
    now apply surviving_in.
Qed.

Lemma build_query_spec_witness :
  let ps := [("symbol", PStr "BTC ETH"); ("symbols", PNone); ("days", PInt 7)] in
  NoDup (map fst ps) /\
  _build_query ps = "?symbol=BTC+ETH&days=7" /\
  query_pairs (_build_query ps) = [("symbol", "BTC+ETH"); ("days", "7")].
Proof.
  assert (Hnd : NoDup (map fst
            [("symbol", PStr "BTC ETH"); ("symbols", PNone); ("days", PInt 7%Z)])).
  { simpl. repeat constructor; simpl; intuition discriminate. }
  split; [exact Hnd|].
  destruct (build_query_spec _ Hnd) as (_ & H2 & H3 & _).
  split; [apply H2; discriminate | exact H3].
Defined.

(** ** Requests *)

Section Requests.
Context {RT : Runtime}.

Lemma build_request_headers (self : CryptoAPI) (endpoint method : string)
    (body : option (dict json)) (payment : option string) :
  req_headers (build_request self endpoint method body payment) =
  ([("Accept", "application/json");
    ("Content-Type", "application/json");
    ("User-Agent", "CryptoAPI-SDK-Python/2.0")]
   ++ optional_header "X-API-Key" (api_key self)
   ++ optional_header "X-PAYMENT" payment)%list.
Proof.
  unfold build_request, optional_header, truthy_str. simpl.
  destruct (api_key self) as [k|]; [destruct (String.eqb k "")|];
    (destruct payment as [p|]; [destruct (String.eqb p "")|]); reflexivity.
Qed.

Lemma lookup_api_key_header (self : CryptoAPI) (endpoint method : string)
    (body : option (dict json)) (payment : option string) :
  dict_lookup (req_headers (build_request self endpoint method body payment))
              "X-API-Key"
  = if truthy_str (api_key self) then api_key self else None.
Proof.
  rewrite build_request_headers. unfold optional_header, truthy_str.
  destruct (api_key self) as [k|]; [destruct (String.eqb k "")|];
    (destruct payment as [p|]; [destruct (String.eqb p "")|]); reflexivity.
Qed.

Lemma lookup_payment_header (self : CryptoAPI) (endpoint method : string)
    (body : option (dict json)) (payment : option string) :
  dict_lookup (req_headers (build_request self endpoint method body payment))
              "X-PAYMENT"
  = if truthy_str payment then payment else None.
Proof.
  rewrite build_request_headers. unfold optional_header, truthy_str.
  destruct (api_key self) as [k|]; [destruct (String.eqb k "")|];
    (destruct payment as [p|]; [destruct (String.eqb p "")|]); reflexivity.
Qed.

Lemma read_rate_limit_eq (self : CryptoAPI) (h : list (string * string)) :
  read_rate_limit self h
  = i <- snapshot_of_headers h ;; Ok (with_snapshot self i).
Proof.
  unfold read_rate_limit, snapshot_of_headers, truthy_str.
  destruct (header_get h "X-RateLimit-Remaining") as [rem|]; [|reflexivity].
  destruct (header_get h "X-RateLimit-Limit") as [lim|];
    [|destruct (String.eqb rem ""); reflexivity].
  destruct (String.eqb rem ""), (String.eqb lim ""); simpl; try reflexivity.
  destruct (py_int rem) as [r|e]; simpl; [|reflexivity].
  destruct (py_int lim) as [l|e]; simpl; [|reflexivity].
  destruct (header_get h "X-RateLimit-Reset") as [s|]; [|reflexivity].
  destruct (String.eqb s ""); simpl; [reflexivity|].
  destruct (py_int s) as [n|e]; reflexivity.
Qed.

(** [_request] in terms of the snapshot of the response. *)
Lemma request_on_response (u : transport) (self : CryptoAPI)
    (endpoint method : string) (body : option (dict json))
    (payment : option string) (status : Z) (h : list (string * string))
    (rbody : string) :
  u (build_request self endpoint method body payment) (timeout self)
  = Response status h rbody ->
  _request u self endpoint method body payment =
  match snapshot_of_headers h with
  | Raise e => (Raise e, self)
  | Ok i =>
      (match json_loads rbody with Some v => Ok v | None => Raise ValueError end,
       with_snapshot self i)
  end.
Proof.
  intros H. unfold _request. rewrite H, read_rate_limit_eq.
  destruct (snapshot_of_headers h) as [i|e]; simpl; [|reflexivity].
  destruct (json_loads rbody); reflexivity.
Qed.

Lemma request_empty_key (u : transport) (self : CryptoAPI)
    (endpoint method : string) (body : option (dict json))
    (payment : option string) :
  fst (_request u (set_api_key self "") endpoint method body payment)
  = fst (_request u (without_key self) endpoint method body payment) /\
  last_rate_limit
    (snd (_request u (set_api_key self "") endpoint method body payment))
  = last_rate_limit
      (snd (_request u (without_key self) endpoint method body payment)).
Proof.
  unfold _request.
  change (build_request (set_api_key self "") endpoint method body payment)
    with (build_request (without_key self) endpoint method body payment).
  change (timeout (set_api_key self "")) with (timeout (without_key self)).
  destruct (u _ _) as [st h b|c m h b|reason|e]; try (split; reflexivity).
  rewrite !read_rate_limit_eq.
  destruct (snapshot_of_headers h) as [[i|]|e]; simpl;
    try (destruct (json_loads b)); split; reflexivity.
Qed.

(** [_request] asks the transport about the request it built and about
    nothing else. *)
Lemma request_consults_transport_once (u1 u2 : transport) (self : CryptoAPI)
    (endpoint method : string) (body : option (dict json))
    (payment : option string) :
  u1 (build_request self endpoint method body payment) (timeout self)
  = u2 (build_request self endpoint method body payment) (timeout self) ->
  _request u1 self endpoint method body payment
  = _request u2 self endpoint method body payment.
Proof. intros H. unfold _request. now rewrite H. Qed.

(** C7. The request that [_request] hands to the transport has the URL
    [{base_url}/api/v2{endpoint}] and the given method; its headers are
    [Accept], [Content-Type] and the fixed [User-Agent], then [X-API-Key]
    exactly when the client's key is set (a non-empty string) and
    [X-PAYMENT] exactly when a payment token is supplied (a non-empty
    string); its data is the JSON serialization of the body when a body
    is present (a non-empty dict) and absent otherwise. *)
Theorem request_shape (self : CryptoAPI) (endpoint method : string)
    (body : option (dict json)) (payment : option string) :
  let r := build_request self endpoint method body payment in
  (forall u : transport,
     _request u self endpoint method body payment
     = _request (fun _ _ => u r (timeout self)) self endpoint method body payment) /\
  req_url r = base_url self ++ "/api/v2" ++ endpoint /\
  req_method r = method /\
  req_headers r =
    ([("Accept", "application/json");
      ("Content-Type", "application/json");
      ("User-Agent", "CryptoAPI-SDK-Python/2.0")]
     ++ optional_header "X-API-Key" (api_key self)
     ++ optional_header "X-PAYMENT" payment)%list /\
  (forall k, dict_lookup (req_headers r) "X-API-Key" = Some k <->
             api_key self = Some k /\ k <> "") /\
  (forall p, dict_lookup (req_headers r) "X-PAYMENT" = Some p <->
             payment = Some p /\ p <> "") /\
  (forall b, req_data r = Some b <->
             exists d, body = Some d /\ d <> [] /\ b = json_dumps d).
Proof.
  intros r. subst r.
  split; [reflexivity|].
  split; [reflexivity|].
  split; [reflexivity|].
  split; [apply build_request_headers|].
  split; [|split].
  - intros k. rewrite lookup_api_key_header. unfold truthy_str.
    destruct (api_key self) as [k'|].
    + destruct (String.eqb k' "") eqn:E; simpl.
      * apply String.eqb_eq in E. subst k'.
        split; [discriminate | intros [H Hne]; congruence].
      * apply String.eqb_neq in E.
        split; [intros H; split; congruence | intros [H _]; exact H].
    + split; [discriminate | intros [H _]; discriminate].
  - intros p. rewrite lookup_payment_header. unfold truthy_str.
    destruct payment as [p'|].
    + destruct (String.eqb p' "") eqn:E; simpl.
      * apply String.eqb_eq in E. subst p'.
        split; [discriminate | intros [H Hne]; congruence].
      * apply String.eqb_neq in E.
        split; [intros H; split; congruence | intros [H _]; exact H].
    + split; [discriminate | intros [H _]; discriminate].
  - intros b. simpl. destruct body as [[|kv d]|]; simpl.
    + split; [discriminate | intros [d [Hd [Hne _]]]; congruence].
    + split.
      * intros H. exists (kv :: d).
        split; [reflexivity | split; [discriminate | congruence]].
      * intros [d' [Hd [_ ->]]]. congruence.
    + split; [discriminate | intros [d [Hd _]]; discriminate].
Qed.

(** C10. A request carries [X-API-Key] if and only if the client's key is
    a non-empty string; after [set_api_key("")] the request built, the
    result of the call and the client's rate-limit snapshot are those of
    the same client without a key, and so for a client just constructed
    with [api_key=None]. *)
Theorem empty_api_key_is_no_key (self : CryptoAPI) (endpoint method : string)
    (body : option (dict json)) (payment : option string) (u : transport) :
  ((exists k, dict_lookup
                (req_headers (build_request self endpoint method body payment))
                "X-API-Key" = Some k)
   <-> (exists k, api_key self = Some k /\ k <> "")) /\
  dict_lookup
    (req_headers (build_request (set_api_key self "") endpoint method body payment))
    "X-API-Key" = None /\
  build_request (set_api_key self "") endpoint method body payment
  = build_request (without_key self) endpoint method body payment /\
  fst (_request u (set_api_key self "") endpoint method body payment)
  = fst (_request u (without_key self) endpoint method body payment) /\
  get_rate_limit_info
    (snd (_request u (set_api_key self "") endpoint method body payment))
  = get_rate_limit_info
      (snd (_request u (without_key self) endpoint method body payment)) /\
  (forall key url tmo,
     build_request (set_api_key (init key url tmo) "") endpoint method body payment
     = build_request (init None url tmo) endpoint method body payment /\
     fst (_request u (set_api_key (init key url tmo) "") endpoint method body payment)
     = fst (_request u (init None url tmo) endpoint method body payment)).
Proof.
  split; [|split; [|split; [reflexivity|split; [|split]]]].
  - rewrite lookup_api_key_header. unfold truthy_str.
    destruct (api_key self) as [k'|].
    + destruct (String.eqb k' "") eqn:E; simpl.
      * apply String.eqb_eq in E. subst k'.
        split; [intros [k Hk]; discriminate | intros [k [Hk Hne]]; congruence].
      * apply String.eqb_neq in E.
        split; intros _; exists k'; [split|]; congruence.
    + split; [intros [k Hk]; discriminate | intros [k [Hk _]]; discriminate].
  - apply lookup_api_key_header.
  - apply request_empty_key.
  - apply request_empty_key.
  - intros key url tmo. split; [reflexivity|].
    apply (request_empty_key u (init key url tmo)).
Qed.

End Requests.

(** ** Responses *)

Section Responses.
Context {RT : Runtime}.

Lemma request_on_http_error (u : transport) (self : CryptoAPI)
    (endpoint method : string) (body : option (dict json))
    (payment : option string) (code : Z) (msg : string)
    (h : list (string * string)) (ebody : string) :
  u (build_request self endpoint method body payment) (timeout self)
  = HTTPError code msg h ebody ->
  _request u self endpoint method body payment
  = (Raise (on_http_error code msg h ebody), self).
Proof. intros H. unfold _request. now rewrite H. Qed.

(** An error response leaves the snapshot as it was. *)
Lemma snapshot_kept_on_http_error (u : transport) (self : CryptoAPI)
    (endpoint method : string) (body : option (dict json))
    (payment : option string) (code : Z) (msg : string)
    (h : list (string * string)) (ebody : string) :
  u (build_request self endpoint method body payment) (timeout self)
  = HTTPError code msg h ebody ->
  get_rate_limit_info (snd (_request u self endpoint method body payment))
  = get_rate_limit_info self.
Proof. intros H. now rewrite (request_on_http_error _ _ _ _ _ _ _ _ _ _ H). Qed.

(** A response without a remaining count, or without a limit, leaves the
    snapshot as it was. *)
Lemma snapshot_kept_without_headers (u : transport) (self : CryptoAPI)
    (endpoint method : string) (body : option (dict json))
    (payment : option string) (status : Z) (h : list (string * string))
    (rbody : string) :
  u (build_request self endpoint method body payment) (timeout self)
  = Response status h rbody ->
  header_get h "X-RateLimit-Remaining" = None
  \/ header_get h "X-RateLimit-Limit" = None ->
  get_rate_limit_info (snd (_request u self endpoint method body payment))
  = get_rate_limit_info self.
Proof.
  intros H Hmiss. rewrite (request_on_response _ _ _ _ _ _ _ _ _ H).
  assert (E : snapshot_of_headers h = Ok None).
  { unfold snapshot_of_headers. destruct Hmiss as [-> | ->]; [reflexivity|].
    destruct (header_get h "X-RateLimit-Remaining"); reflexivity. }
  rewrite E. reflexivity.
Qed.



(** C5. A 402 response makes the call raise [PaymentRequiredError]
    (status 402, code [PAYMENT_REQUIRED]) whose [payment_info] is the
    value of the [X-Payment-Required] header as received, or [None] when
    the response has no such header. *)
Theorem payment_required (u : transport) (self : CryptoAPI)
    (endpoint method : string) (body : option (dict json))
    (payment : option string) (msg : string) (h : list (string * string))
    (ebody : string) :
  u (build_request self endpoint method body payment) (timeout self)
  = HTTPError 402 msg h ebody ->
  exists e,
    fst (_request u self endpoint method body payment) = Raise (SDK e) /\
    e = PaymentRequiredError (header_get h "X-Payment-Required") /\
    error_status e = 402%Z /\
    error_code e = JStr "PAYMENT_REQUIRED" /\
    (forall v, header_get h "X-Payment-Required" = Some v ->
               e = PaymentRequiredError (Some v)) /\
    (header_get h "X-Payment-Required" = None ->
     e = PaymentRequiredError None).
Proof.
  intros H. rewrite (request_on_http_error _ _ _ _ _ _ _ _ _ _ H).
  exists (PaymentRequiredError (header_get h "X-Payment-Required")).
  repeat split.
  - intros v Hv. now rewrite Hv.
  - intros Hv. now rewrite Hv.
Qed.

(** X26. A 429 response without a [Retry-After] header makes the call
    raise [RateLimitError] (status 429) with [retry_after] 60, and one
    whose [Retry-After] header [int] accepts makes it raise
    [RateLimitError] with the integer read. *)
Theorem rate_limited (u : transport) (self : CryptoAPI)
    (endpoint method : string) (body : option (dict json))
    (payment : option string) (msg : string) (h : list (string * string))
    (ebody : string) :
  u (build_request self endpoint method body payment) (timeout self)
  = HTTPError 429 msg h ebody ->
  (header_get h "Retry-After" = None ->
   fst (_request u self endpoint method body payment)
   = Raise (SDK (RateLimitError 60))) /\
  (forall s n,
     header_get h "Retry-After" = Some s -> int_of_str s = Some n ->
     fst (_request u self endpoint method body payment)
     = Raise (SDK (RateLimitError n))) /\
  (forall n, error_status (RateLimitError n) = 429%Z).
Proof.
  intros H. rewrite (request_on_http_error _ _ _ _ _ _ _ _ _ _ H).
  unfold on_http_error. simpl. split; [|split].
  - intros Hnone. now rewrite Hnone.
  - intros s n Hs Hn. now rewrite Hs, Hn.
  - reflexivity.
Qed.

(** X27. A response with a status other than 2xx, 402 and 429
    whose body is a JSON object makes the call raise [CryptoAPIError]
    with the object's [error] (default ["Request failed"]), its [code]
    (default ["UNKNOWN"]), the HTTP status and its [details] (default
    [None]); when the body is not JSON the error data is the one-entry
    object holding the text of the HTTP error, so the call raises
    [CryptoAPIError] with that text, code ["UNKNOWN"], the HTTP status
    and no details. *)
Theorem generic_api_error (u : transport) (self : CryptoAPI)
    (endpoint method : string) (body : option (dict json))
    (payment : option string) (code : Z) (msg : string)
    (h : list (string * string)) (ebody : string) :
  u (build_request self endpoint method body payment) (timeout self)
  = HTTPError code msg h ebody ->
  code <> 402%Z -> code <> 429%Z ->
  (forall d, json_loads ebody = Some (JDict d) ->
     fst (_request u self endpoint method body payment)
     = Raise (SDK (CryptoAPIError
                     (dict_get d "error" (JStr "Request failed"))
                     (dict_get d "code" (JStr "UNKNOWN"))
                     code
                     (dict_get d "details" JNull)))) /\
  (json_loads ebody = None ->
     fst (_request u self endpoint method body payment)
     = Raise (SDK (CryptoAPIError (JStr (http_error_str code msg))
                                  (JStr "UNKNOWN") code JNull))).
Proof.
  intros H H402 H429. rewrite (request_on_http_error _ _ _ _ _ _ _ _ _ _ H).
  unfold on_http_error. simpl.
  apply Z.eqb_neq in H402, H429. rewrite H402, H429.
  split.
  - intros d Hd. now rewrite Hd.
  - intros Hd. now rewrite Hd.
Qed.

(** C6, amended. When the transport fails with [URLError] (no response
    received: a DNS failure, a refused connection, a timeout while
    connecting or sending) the call raises [CryptoAPIError] whose
    message is ["Connection error: "] followed by the transport's
    reason, with code ["CONNECTION_ERROR"], the status 0 that stands for
    no HTTP status, and no details; the client is unchanged. *)
Theorem connection_error (u : transport) (self : CryptoAPI)
    (endpoint method : string) (body : option (dict json))
    (payment : option string) (reason : string) :
  u (build_request self endpoint method body payment) (timeout self)
  = URLError reason ->
  _request u self endpoint method body payment
  = (Raise (SDK (CryptoAPIError (JStr ("Connection error: " ++ reason))
                                (JStr "CONNECTION_ERROR") 0 JNull)), self).
Proof. intros H. unfold _request. now rewrite H. Qed.

End Responses.

(** ** Operations *)

Lemma all_chars_app (p : ascii -> bool) (a b : string) :
  all_chars p (a ++ b) = all_chars p a && all_chars p b.
Proof.
  induction a as [|c a IH]; simpl; [reflexivity|].
  now rewrite IH, andb_assoc.
Qed.

Lemma quoter_slash_path_chars (c : ascii) :
  all_chars path_char (quoter "/" c) = true.
Proof. each_byte c; reflexivity. Qed.

(** [quote(id)] is made of path characters only: nothing in it can end
    the path or start a query or a fragment. *)
Lemma quote_slash_path_chars (s : string) :
  all_chars path_char (quote "/" s) = true.
Proof.
  unfold quote. induction s as [|c s IH]; simpl; [reflexivity|].
  now rewrite all_chars_app, quoter_slash_path_chars, IH.
Qed.

Lemma get_coins_pairs (page per_page : Z) (order : string)
    (ids : option string) (sparkline : bool) :
  query_pairs (get_coins_query page per_page order ids sparkline) =
  ([("page", quote_plus "" (str_int page));
    ("per_page", quote_plus "" (str_int per_page));
    ("order", quote_plus "" order)]
   ++ match ids with Some s => [("ids", quote_plus "" s)] | None => [] end
   ++ (if sparkline then [("sparkline", "true")] else []))%list.
Proof.
  unfold get_coins_query. rewrite query_pairs_build_query.
  destruct ids, sparkline; reflexivity.
Qed.

Section Operations.
Context {RT : Runtime}.

(** C8. [get_coins] requests [/coins] followed by its query string.  With
    [sparkline=False] no pair of the query has the key [sparkline]; with
    [sparkline=True] exactly one has, and its value is [true].  For
    [get_coins(page=2, per_page=10, sparkline=True)] the query is
    [?page=2&per_page=10&order=market_cap_desc&sparkline=true]: it holds
    [page=2], [per_page=10] and [sparkline=true], and no [ids]. *)
Theorem get_coins_sparkline (u : transport) (self : CryptoAPI)
    (page per_page : Z) (order : string) (ids : option string) :
  (forall sparkline,
     get_coins u self page per_page order ids sparkline
     = _request u self
         ("/coins" ++ get_coins_query page per_page order ids sparkline)
         "GET" None None) /\
  count_occ string_dec
    (map fst (query_pairs (get_coins_query page per_page order ids false)))
    "sparkline" = 0 /\
  count_occ string_dec
    (map fst (query_pairs (get_coins_query page per_page order ids true)))
    "sparkline" = 1 /\
  In ("sparkline", "true")
     (query_pairs (get_coins_query page per_page order ids true)) /\
  (let q := get_coins_query 2 10 get_coins_default_order None true in
   q = "?page=2&per_page=10&order=market_cap_desc&sparkline=true" /\
   In ("page", "2") (query_pairs q) /\
   In ("per_page", "10") (query_pairs q) /\
   In ("sparkline", "true") (query_pairs q) /\
   ~ In "ids" (map fst (query_pairs q))).
Proof.
  split; [reflexivity|].
  split; [|split; [|split]].
  - rewrite get_coins_pairs. destruct ids; reflexivity.
  - rewrite get_coins_pairs. destruct ids; reflexivity.
  - rewrite get_coins_pairs. apply in_or_app. right.
    apply in_or_app. right. now left.
  - simpl. split; [reflexivity|].
    change (query_pairs
              (get_coins_query 2 10 get_coins_default_order None true))
      with [("page", "2"); ("per_page", "10"); ("order", "market_cap_desc");
            ("sparkline", "true")].
    simpl. repeat split; try tauto.
    intros [H|[H|[H|[H|[]]]]]; discriminate.
Qed.

(** C9, amended. [get_coin(id)] sends a GET request to
    [{base_url}/api/v2/coin/] followed by [quote(id)], the id with every
    byte other than letters, digits, [_.-~] and [/] written [%XX]; for
    ["bitcoin"] that is [{base_url}/api/v2/coin/bitcoin].  When
    [urlopen] answers that request with a response whose rate-limit
    headers are read without error (the remaining count or the limit is
    missing or empty, or both are integers and the reset time is
    missing, empty or an integer), [get_coin] returns the decoded body,
    so a body that decodes to a value with [data.price] 65000 gives a
    returned value with [data.price] 65000. *)
Theorem get_coin_spec (u : transport) (self : CryptoAPI) (id : string) :
  let r := build_request self ("/coin/" ++ quote "/" id) "GET" None None in
  get_coin u self id
  = _request (fun _ _ => u r (timeout self)) self ("/coin/" ++ quote "/" id)
             "GET" None None /\
  req_url r = base_url self ++ "/api/v2/coin/" ++ quote "/" id /\
  req_method r = "GET" /\
  req_data r = None /\
  all_chars path_char (quote "/" id) = true /\
  (id = "bitcoin" -> req_url r = base_url self ++ "/api/v2/coin/bitcoin") /\
  (forall status h rbody i v,
     u r (timeout self) = Response status h rbody ->
     snapshot_of_headers h = Ok i ->
     json_loads rbody = Some v ->
     fst (get_coin u self id) = Ok v /\
     (data_price v = Some (JInt 65000) ->
      exists w, fst (get_coin u self id) = Ok w
                /\ data_price w = Some (JInt 65000))).
Proof.
  intros r. subst r.
  split; [reflexivity|].
  split; [reflexivity|].
  split; [reflexivity|].
  split; [reflexivity|].
  split; [apply quote_slash_path_chars|].
  split; [intros ->; reflexivity|].
  intros status h rbody i v H Hi Hv.
  assert (E : fst (get_coin u self id) = Ok v).
  { unfold get_coin. rewrite (request_on_response _ _ _ _ _ _ _ _ _ H).
    now rewrite Hi, Hv. }
  split; [exact E|].
  intros Hp. exists v. now split.
Qed.

End Operations.

(** ** Closed examples with the reference runtime *)

Example quote_plus_ex :
  quote_plus "" "a b&c=d/e~" = "a+b%26c%3Dd%2Fe~".
Proof. reflexivity. Qed.

Example quote_ex : quote "/" "usd coin/v2" = "usd%20coin/v2".
Proof. reflexivity. Qed.

Example build_query_ex :
  _build_query [("symbol", PStr "BTC"); ("symbols", PNone)] = "?symbol=BTC".
Proof. reflexivity. Qed.

Example build_query_empty_ex :
  _build_query [("symbol", PNone); ("symbols", PNone)] = "".
Proof. reflexivity. Qed.

Example loads_ex : Ref.loads bitcoin_body
                   = Some (JDict [("data", JDict [("price", JInt 65000)])]).
Proof. reflexivity. Qed.

Example parse_int_ex :
  Ref.parse_int "45" = Some 45%Z /\ Ref.parse_int " -4_5 " = Some (-45)%Z
  /\ Ref.parse_int "4.5" = None /\ Ref.parse_int "" = None.
Proof. repeat split. Qed.

(** C2. The code at a 429 response that carries a remaining count and a
    limit that [int] reads: the call raises [RateLimitError] and the
    snapshot is not updated, neither on a fresh client nor on one that
    holds the snapshot of an earlier response. *)
Lemma snapshot_not_updated_on_error_response :
  header_get busy_headers "X-RateLimit-Remaining" = Some "0" /\
  header_get busy_headers "X-RateLimit-Limit" = Some "100" /\
  Ref.parse_int "0" = Some 0%Z /\
  Ref.parse_int "100" = Some 100%Z /\
  fst (_request (RT := Ref.runtime) busy_server demo_client
         "/global" "GET" None None)
  = Raise (SDK (RateLimitError 45)) /\
  get_rate_limit_info
    (snd (_request (RT := Ref.runtime) busy_server demo_client
            "/global" "GET" None None))
  = None /\
  get_rate_limit_info
    (snd (_request (RT := Ref.runtime) busy_server
            (snd (_request (RT := Ref.runtime) quota_server demo_client
                    "/global" "GET" None None))
            "/global" "GET" None None))
  = Some {| remaining := 42; limit := 100; reset_at := 1700000000000 |}.
Proof. repeat split. Qed.


(** C3. The code at a 429 response whose [Retry-After] is an HTTP date:
    [int] fails on it and the call raises [ValueError], not a
    [RateLimitError] with the default 60. *)
Lemma retry_after_date_raises_value_error :
  header_get later_headers "Retry-After" = Some "Wed, 21 Oct 2015 07:28:00 GMT" /\
  Ref.parse_int "Wed, 21 Oct 2015 07:28:00 GMT" = None /\
  fst (_request (RT := Ref.runtime) later_server demo_client
         "/global" "GET" None None)
  = Raise ValueError /\
  fst (_request (RT := Ref.runtime) later_server demo_client
         "/global" "GET" None None)
  <> Raise (SDK (RateLimitError 60)).
Proof. repeat split. discriminate. Qed.

Lemma rate_limited_witness :
  fst (_request (RT := Ref.runtime) busy_server demo_client
         "/global" "GET" None None)
  = Raise (SDK (RateLimitError 45)).
Proof.
  exact (proj1 (proj2 (rate_limited (RT := Ref.runtime)
                         busy_server demo_client "/global" "GET" None None
                         "Too Many Requests" busy_headers "" eq_refl))
               "45" 45%Z eq_refl eq_refl).
Defined.

(** C4. The code at a 500 response whose body is the JSON list [[]]:
    the call raises [AttributeError], not a [CryptoAPIError]. *)
Lemma list_error_body_raises_attribute_error :
  Ref.loads "[]" = Some (JList []) /\
  _request (RT := Ref.runtime) broken_server demo_client
    "/global" "GET" None None
  = (Raise AttributeError, demo_client) /\
  (forall e, fst (_request (RT := Ref.runtime) broken_server demo_client
                    "/global" "GET" None None) <> Raise (SDK e)).
Proof. repeat split. intros e. discriminate. Qed.

Lemma generic_api_error_witness :
  fst (_request (RT := Ref.runtime) html_server demo_client
         "/global" "GET" None None)
  = Raise (SDK (CryptoAPIError
                  (JStr "HTTP Error 500: Internal Server Error")
                  (JStr "UNKNOWN") 500 JNull)) /\
  fst (_request (RT := Ref.runtime) missing_server demo_client
         "/coin/nope" "GET" None None)
  = Raise (SDK (CryptoAPIError (JStr "Coin not found") (JStr "NOT_FOUND")
                               404 JNull)).
Proof.
  split.
  - refine (proj2 (generic_api_error (RT := Ref.runtime)
                     html_server demo_client "/global" "GET" None None
                     500 "Internal Server Error" [] "<html>oops</html>"
                     eq_refl _ _) eq_refl); discriminate.
  - refine (proj1 (generic_api_error (RT := Ref.runtime)
                     missing_server demo_client "/coin/nope" "GET" None None
                     404 "Not Found" [] not_found_body
                     eq_refl _ _)
                  [("error", JStr "Coin not found"); ("code", JStr "NOT_FOUND")]
                  eq_refl); discriminate.
Defined.

Lemma payment_required_witness :
  exists e,
    fst (_request (RT := Ref.runtime) paywall_server demo_client
           "/global" "GET" None None) = Raise (SDK e) /\
    e = PaymentRequiredError (Some "x402 0.01 USDC").
Proof.
  destruct (payment_required (RT := Ref.runtime)
              paywall_server demo_client "/global" "GET" None None
              "Payment Required" [("x-payment-required", "x402 0.01 USDC")] "{}"
              eq_refl) as [e [H1 [H2 _]]].
  exists e. split; [exact H1 | exact H2].
Defined.

(** C6, as stated, fails: when the transport raises [URLError] the
    message of the error is not the transport's reason but the reason
    behind a fixed prefix; and when no response arrives in time and the
    transport lets [TimeoutError] out, the call raises that
    [TimeoutError], not a connection error. *)
Lemma connection_error_message_is_prefixed :
  (exists e,
     fst (_request (RT := Ref.runtime) offline demo_client
            "/global" "GET" None None) = Raise (SDK e) /\
     error_message e = JStr "Connection error: timed out" /\
     error_message e <> JStr "timed out" /\
     error_status e = 0%Z) /\
  _request (RT := Ref.runtime) stalled demo_client "/global" "GET" None None
  = (Raise TimeoutError, demo_client) /\
  (forall e, fst (_request (RT := Ref.runtime) stalled demo_client
                    "/global" "GET" None None) <> Raise (SDK e)).
Proof.
  split; [|split].
  - eexists. split; [reflexivity|]. repeat split. discriminate.
  - reflexivity.
  - intros e. discriminate.
Qed.

Lemma connection_error_witness :
  _request (RT := Ref.runtime) offline demo_client "/global" "GET" None None
  = (Raise (SDK (CryptoAPIError (JStr "Connection error: timed out")
                                (JStr "CONNECTION_ERROR") 0 JNull)),
     demo_client).
Proof.
  exact (connection_error (RT := Ref.runtime) offline demo_client
           "/global" "GET" None None "timed out" eq_refl).
Defined.

(** C9, as stated, fails: a 200 response with the body
    [{"data":{"price":65000}}] whose remaining count is not a number
    makes [get_coin("bitcoin")] raise [ValueError]; no value is
    returned. *)
Lemma get_coin_garbled_rate_limit_raises :
  Ref.loads bitcoin_body
  = Some (JDict [("data", JDict [("price", JInt 65000)])]) /\
  get_coin (RT := Ref.runtime) garbled_coin_server demo_client "bitcoin"
  = (Raise ValueError, demo_client) /\
  (forall w, fst (get_coin (RT := Ref.runtime) garbled_coin_server
                    demo_client "bitcoin") <> Ok w).
Proof.
  split; [reflexivity|]. split; [reflexivity|].
  intros w. discriminate.
Qed.

Lemma get_coin_spec_witness :
  req_url (build_request (RT := Ref.runtime) demo_client
             ("/coin/" ++ quote "/" "bitcoin") "GET" None None)
  = "https://crypto-data-aggregator.vercel.app/api/v2/coin/bitcoin" /\
  (exists w,
     fst (get_coin (RT := Ref.runtime) coin_server demo_client "bitcoin") = Ok w
     /\ data_price w = Some (JInt 65000)) /\
  get_bitcoin_price (RT := Ref.runtime) coin_server = Ok (JInt 65000).
Proof.
  pose proof (get_coin_spec (RT := Ref.runtime) coin_server demo_client "bitcoin")
    as (_ & _ & _ & _ & _ & Hurl & Hres).
  split; [exact (Hurl eq_refl)|].
  split; [|reflexivity].
  exact (proj2 (Hres 200%Z [] bitcoin_body None
                  (JDict [("data", JDict [("price", JInt 65000)])])
                  eq_refl eq_refl eq_refl) eq_refl).
Defined.

(* ================================================================== *)
(** * Further properties *)
(* ================================================================== *)

(** ** Query strings, continued *)

Lemma all_chars_concat (p : ascii -> bool) (l : list string) :
  (forall x, In x l -> all_chars p x = true) ->
  all_chars p (concat_str l) = true.
Proof.
  induction l as [|x l IH]; intros H; simpl; [reflexivity|].
  rewrite all_chars_app, (H x (or_introl eq_refl)). simpl.
  apply IH. intros y Hy. apply H. now right.
Qed.

Lemma all_chars_join (p : ascii -> bool) (sep : string) (l : list string) :
  all_chars p sep = true ->
  (forall x, In x l -> all_chars p x = true) ->
  all_chars p (join sep l) = true.
Proof.
  intros Hsep. induction l as [|x l IH]; intros H; [reflexivity|].
  destruct l as [|y l].
  - simpl. apply H. now left.
  - change (join sep (x :: y :: l)) with (x ++ sep ++ join sep (y :: l)).
    rewrite !all_chars_app, (H x (or_introl eq_refl)), Hsep. simpl.
    apply IH. intros z Hz. apply H. now right.
Qed.

Lemma plus_quoter_query_chars (c : ascii) :
  all_chars query_char (plus_quoter c) = true.
Proof. each_byte c; reflexivity. Qed.

Lemma quote_plus_query_chars (s : string) :
  all_chars query_char (quote_plus "" s) = true.
Proof.
  rewrite quote_plus_bytes. apply all_chars_concat.
  intros x Hx. apply in_map_iff in Hx as [c [<- _]].
  apply plus_quoter_query_chars.
Qed.

Lemma all_chars_forall (p : ascii -> bool) (s : string) (c : ascii) :
  all_chars p s = true -> mem_char c s = true -> p c = true.
Proof.
  induction s as [|d s IH]; simpl; [discriminate|].
  intros H Hc. apply andb_true_iff in H as [Hd Hs].
  apply orb_true_iff in Hc as [Hc|Hc].
  - apply Ascii.eqb_eq in Hc. now subst.
  - now apply IH.
Qed.

(** X1. Whatever the keys and values, the query string is made of
    letters, digits, [_.-~], [%], [+], [?], [&] and [=] only: it holds no
    space, no [#], no [/] and no byte above 127. *)
Theorem build_query_chars (ps : params) :
  all_chars query_char (_build_query ps) = true /\
  (forall c, mem_char c (_build_query ps) = true ->
     c <> " "%char /\ c <> "#"%char /\ c <> "/"%char
     /\ (N_of_ascii c < 128)%N).
Proof.
  assert (H : all_chars query_char (_build_query ps) = true).
  { rewrite build_query_unfold.
    destruct (surviving ps) as [|kv l]; [reflexivity|].
    assert (J : all_chars query_char
                  (join "&" (map encode_pair (kv :: l))) = true).
    { apply all_chars_join; [reflexivity|].
      intros x Hx. apply in_map_iff in Hx as [a [<- _]].
      unfold encode_pair.
      now rewrite !all_chars_app, !quote_plus_query_chars. }
    change (query_char "?"
            && all_chars query_char (join "&" (map encode_pair (kv :: l)))
            = true).
    now rewrite J. }
  split; [exact H|].
  intros c Hc. pose proof (all_chars_forall _ _ _ H Hc) as Hq.
  clear - Hq. revert Hq. each_byte c; cbv; intros Hq;
    try discriminate Hq;
    (repeat split; try discriminate; reflexivity).
Qed.

(** X2. Percent-decoding the pairs of the query string gives back the
    keys and the [str] of the values of the entries that are not [None],
    in their order: nothing is lost or merged by the encoding. *)
Theorem build_query_round_trip (ps : params) :
  map (fun kv => (unquote_plus (fst kv), unquote_plus (snd kv)))
      (query_pairs (_build_query ps))
  = map (fun kv => (fst kv, py_str (snd kv))) (surviving ps).
Proof.
  rewrite query_pairs_build_query, map_map.
  apply map_ext. intros [k v]. unfold encoded. simpl.
  now rewrite !unquote_quote_plus.
Qed.

Lemma surviving_app (a b : params) :
  surviving (a ++ b)%list = (surviving a ++ surviving b)%list.
Proof. unfold surviving. apply filter_app. Qed.

Lemma build_query_surviving (ps qs : params) :
  surviving ps = surviving qs -> _build_query ps = _build_query qs.
Proof. intros H. now rewrite !build_query_unfold, H. Qed.

(** X3. Entries whose value is [None] have no effect on the query string:
    adding one anywhere in the mapping, or dropping them all, leaves it
    the same; and the query string is empty exactly when every value is
    [None]. *)
Theorem build_query_none_invisible (ps qs : params) (k : string) :
  _build_query (ps ++ (k, PNone) :: qs)%list = _build_query (ps ++ qs)%list /\
  _build_query (surviving ps) = _build_query ps /\
  (_build_query ps = "" <-> forall kv, In kv ps -> snd kv = PNone).
Proof.
  split; [|split].
  - apply build_query_surviving.
    now rewrite !surviving_app.
  - apply build_query_surviving.
    unfold surviving. induction ps as [|kv l IH]; simpl; [reflexivity|].
    destruct (is_not_none (snd kv)) eqn:E; simpl; [|exact IH].
    now rewrite E, IH.
  - rewrite build_query_unfold. split.
    + intros H [k' v] Hin. simpl.
      destruct v; try reflexivity;
        (assert (Hs : In (k', _) (surviving ps))
           by (apply surviving_in; split; [exact Hin | discriminate]);
         destruct (surviving ps); [contradiction | discriminate]).
    + intros H. destruct (surviving ps) as [|[k' v] l] eqn:E; [reflexivity|].
      assert (Hin : In (k', v) (surviving ps)) by (rewrite E; now left).
      apply surviving_in in Hin as [Hin Hv].
      exfalso. apply Hv. exact (H (k', v) Hin).
Qed.

(** ** Integers in query strings *)

Lemma uint_digits_safe (d : Decimal.uint) :
  all_chars always_safe (NilEmpty.string_of_uint d) = true.
Proof. induction d; simpl; try reflexivity; exact IHd. Qed.

Lemma str_int_safe (n : Z) : all_chars always_safe (str_int n) = true.
Proof.
  unfold str_int, NilZero.string_of_int, NilZero.string_of_uint.
  destruct (Z.to_int n) as [d|d]; destruct d; simpl;
    try reflexivity; apply uint_digits_safe.
Qed.

Lemma plus_quoter_safe (c : ascii) :
  always_safe c = true -> plus_quoter c = String c "".
Proof. each_byte c; intros H; try reflexivity; discriminate H. Qed.

Lemma quote_plus_safe_text (s : string) :
  all_chars always_safe s = true -> quote_plus "" s = s.
Proof.
  rewrite quote_plus_bytes.
  induction s as [|c s IH]; simpl; [reflexivity|].
  intros H. apply andb_true_iff in H as [Hc Hs].
  now rewrite (plus_quoter_safe c Hc), (IH Hs).
Qed.

Lemma string_app_assoc (a b c : string) : (a ++ b) ++ c = a ++ (b ++ c).
Proof. induction a as [|x a IH]; simpl; [reflexivity | now rewrite IH]. Qed.

Lemma string_app_nil_r (a : string) : a ++ "" = a.
Proof. induction a as [|x a IH]; simpl; [reflexivity | now rewrite IH]. Qed.

(** X4. An integer parameter is written as its decimal text, never
    escaped: the query of [get_historical] is [?days=] followed by the
    digits, and that of [get_coins] is
    [?page=<page>&per_page=<per_page>&order=<order>], then [&ids=<ids>]
    when ids are given, then [&sparkline=true] when asked for. *)
Theorem integer_parameters_plain (page per_page days : Z) (order : string)
    (ids : option string) (sparkline : bool) :
  quote_plus "" (str_int days) = str_int days /\
  _build_query [("days", PInt days)] = "?days=" ++ str_int days /\
  get_coins_query page per_page order ids sparkline
  = "?page=" ++ str_int page ++ "&per_page=" ++ str_int per_page
    ++ "&order=" ++ quote_plus "" order
    ++ match ids with Some s => "&ids=" ++ quote_plus "" s | None => "" end
    ++ (if sparkline then "&sparkline=true" else "").
Proof.
  pose proof (quote_plus_safe_text _ (str_int_safe days)) as Hd.
  pose proof (quote_plus_safe_text _ (str_int_safe page)) as Hp.
  pose proof (quote_plus_safe_text _ (str_int_safe per_page)) as Hpp.
  split; [exact Hd|]. split.
  - unfold _build_query, urlencode, encode_pair.
    cbn -[quote_plus str_int append]. now rewrite Hd.
  - unfold get_coins_query, _build_query, urlencode, encode_pair.
    destruct ids as [s|], sparkline;
      cbn -[quote_plus str_int append]; rewrite Hp, Hpp;
      repeat rewrite string_app_assoc; rewrite ?string_app_nil_r;
      reflexivity.
Qed.

(** ** The request primitive, continued *)

Section RequestBehaviour.
Context {RT : Runtime}.

Lemma with_snapshot_config (self : CryptoAPI) (i : option RateLimitInfo) :
  base_url (with_snapshot self i) = base_url self /\
  api_key (with_snapshot self i) = api_key self /\
  timeout (with_snapshot self i) = timeout self.
Proof. destruct i; repeat split. Qed.

Lemma request_client_after (u : transport) (self : CryptoAPI)
    (endpoint method : string) (body : option (dict json))
    (payment : option string) :
  snd (_request u self endpoint method body payment) = self
  \/ exists i, snd (_request u self endpoint method body payment)
               = set_last_rate_limit self i.
Proof.
  unfold _request.
  destruct (u _ _) as [st h b|c m h b|reason|e]; try (now left).
  rewrite read_rate_limit_eq.
  destruct (snapshot_of_headers h) as [[i|]|e]; simpl;
    try (destruct (json_loads b)); try (now left); right; now exists i.
Qed.

(** X5. Whatever the transport answers, a request leaves the base URL,
    the API key and the timeout of the client as they were, so the next
    request is built exactly as it would have been before. *)
Theorem request_keeps_configuration (u : transport) (self : CryptoAPI)
    (endpoint method : string) (body : option (dict json))
    (payment : option string) :
  let after := snd (_request u self endpoint method body payment) in
  base_url after = base_url self /\
  api_key after = api_key self /\
  timeout after = timeout self /\
  (forall endpoint' method' body' payment',
     build_request after endpoint' method' body' payment'
     = build_request self endpoint' method' body' payment').
Proof.
  intros after. subst after.
  destruct (request_client_after u self endpoint method body payment)
    as [-> | [i ->]]; repeat split.
Qed.

(** X6. When [urlopen] does not return a response (it raises [HTTPError]
    or [URLError]) the call raises and the client, snapshot included, is
    exactly as before. *)
Theorem failed_request_leaves_client (u : transport) (self : CryptoAPI)
    (endpoint method : string) (body : option (dict json))
    (payment : option string) :
  (forall status h rbody,
     u (build_request self endpoint method body payment) (timeout self)
     <> Response status h rbody) ->
  snd (_request u self endpoint method body payment) = self /\
  exists e, fst (_request u self endpoint method body payment) = Raise e.
Proof.
  intros H. unfold _request.
  destruct (u _ _) as [st h b|c m h b|reason|e] eqn:E.
  - exfalso. now apply (H st h b).
  - split; [reflexivity | eexists; reflexivity].
  - split; [reflexivity | eexists; reflexivity].
  - split; [reflexivity | eexists; reflexivity].
Qed.

(** X7. A value is returned only for a response whose body decodes to
    that value and whose rate-limit headers were read without error. *)
Theorem returned_value_is_decoded_body (u : transport) (self : CryptoAPI)
    (endpoint method : string) (body : option (dict json))
    (payment : option string) (v : json) :
  fst (_request u self endpoint method body payment) = Ok v ->
  exists status h rbody self',
    u (build_request self endpoint method body payment) (timeout self)
    = Response status h rbody /\
    json_loads rbody = Some v /\
    read_rate_limit self h = Ok self' /\
    snd (_request u self endpoint method body payment) = self'.
Proof.
  unfold _request.
  destruct (u _ _) as [st h b|c m h b|reason|e0]; simpl; try discriminate.
  destruct (read_rate_limit self h) as [self'|e] eqn:Er; simpl;
    [|discriminate].
  destruct (json_loads b) as [w|] eqn:Eb; simpl; [|discriminate].
  intros H. inversion H; subst.
  exists st, h, b, self'.
  split; [reflexivity|]. split; [exact Eb|]. split; [exact Er | reflexivity].
Qed.

(** X8. A 2xx response whose remaining count and limit are non-empty
    but whose remaining count, limit or non-empty reset time is not an
    integer makes the call raise [ValueError]: the body is not returned
    and the client is unchanged. *)
Theorem malformed_rate_limit_raises (u : transport) (self : CryptoAPI)
    (endpoint method : string) (body : option (dict json))
    (payment : option string) (status : Z) (h : list (string * string))
    (rbody rem lim : string) :
  u (build_request self endpoint method body payment) (timeout self)
  = Response status h rbody ->
  header_get h "X-RateLimit-Remaining" = Some rem -> rem <> "" ->
  header_get h "X-RateLimit-Limit" = Some lim -> lim <> "" ->
  int_of_str rem = None \/ int_of_str lim = None
  \/ (exists s, header_get h "X-RateLimit-Reset" = Some s /\ s <> ""
                /\ int_of_str s = None) ->
  _request u self endpoint method body payment = (Raise ValueError, self).
Proof.
  intros H Hrem Hrne Hlim Hlne Hbad.
  apply String.eqb_neq in Hrne, Hlne.
  rewrite (request_on_response _ _ _ _ _ _ _ _ _ H).
  assert (E : snapshot_of_headers h = Raise ValueError).
  { unfold snapshot_of_headers, py_int. rewrite Hrem, Hlim, Hrne, Hlne. simpl.
    destruct (int_of_str rem) as [r|]; simpl; [|reflexivity].
    destruct (int_of_str lim) as [l|]; simpl; [|reflexivity].
    destruct Hbad as [Hb | [Hb | [s [Hs [Hsne Hb]]]]]; try discriminate.
    apply String.eqb_neq in Hsne. now rewrite Hs, Hsne, Hb. }
  now rewrite E.
Qed.

(** X9. The snapshot is stored before the body is decoded: a 2xx
    response with a readable remaining count and limit and a body that
    is not JSON makes the call raise [ValueError] and still leaves the
    new snapshot in the client. *)
Theorem snapshot_stored_before_decoding (u : transport) (self : CryptoAPI)
    (endpoint method : string) (body : option (dict json))
    (payment : option string) (status : Z) (h : list (string * string))
    (rbody rem lim : string) (r l : Z) :
  u (build_request self endpoint method body payment) (timeout self)
  = Response status h rbody ->
  header_get h "X-RateLimit-Remaining" = Some rem -> rem <> "" ->
  int_of_str rem = Some r ->
  header_get h "X-RateLimit-Limit" = Some lim -> lim <> "" ->
  int_of_str lim = Some l ->
  header_get h "X-RateLimit-Reset" = None ->
  json_loads rbody = None ->
  _request u self endpoint method body payment
  = (Raise ValueError,
     set_last_rate_limit self {| remaining := r; limit := l; reset_at := 0 |}).
Proof.
  intros H Hrem Hrne Hr Hlim Hlne Hl Hreset Hbody.
  apply String.eqb_neq in Hrne, Hlne.
  rewrite (request_on_response _ _ _ _ _ _ _ _ _ H).
  unfold snapshot_of_headers, py_int.
  rewrite Hrem, Hlim, Hrne, Hlne, Hr, Hl, Hreset, Hbody. reflexivity.
Qed.

(** X10. A 2xx response in which the remaining count or the limit is
    missing or empty leaves the client exactly as it was (an earlier
    snapshot is kept, not cleared), and the call returns the decoded
    body, or raises [ValueError] when the body is not JSON. *)
Theorem response_without_rate_limit (u : transport) (self : CryptoAPI)
    (endpoint method : string) (body : option (dict json))
    (payment : option string) (status : Z) (h : list (string * string))
    (rbody : string) :
  u (build_request self endpoint method body payment) (timeout self)
  = Response status h rbody ->
  truthy_str (header_get h "X-RateLimit-Remaining") = false
  \/ truthy_str (header_get h "X-RateLimit-Limit") = false ->
  _request u self endpoint method body payment
  = (match json_loads rbody with
     | Some v => Ok v
     | None => Raise ValueError
     end, self).
Proof.
  intros H Hmiss. rewrite (request_on_response _ _ _ _ _ _ _ _ _ H).
  assert (E : snapshot_of_headers h = Ok None).
  { unfold snapshot_of_headers, truthy_str in *.
    destruct (header_get h "X-RateLimit-Remaining") as [rem|]; [|reflexivity].
    destruct (header_get h "X-RateLimit-Limit") as [lim|]; [|reflexivity].
    destruct (String.eqb rem ""), (String.eqb lim ""); simpl in *;
      try reflexivity.
    destruct Hmiss; discriminate. }
  now rewrite E.
Qed.

(** X11. Whenever an error response makes the call raise one of the
    SDK's exceptions, the status of that exception is the HTTP status of
    the response. *)
Theorem raised_status_is_http_status (u : transport) (self : CryptoAPI)
    (endpoint method : string) (body : option (dict json))
    (payment : option string) (code : Z) (msg : string)
    (h : list (string * string)) (ebody : string) (e : api_error) :
  u (build_request self endpoint method body payment) (timeout self)
  = HTTPError code msg h ebody ->
  fst (_request u self endpoint method body payment) = Raise (SDK e) ->
  error_status e = code.
Proof.
  intros H. rewrite (request_on_http_error _ _ _ _ _ _ _ _ _ _ H).
  unfold on_http_error. simpl.
  destruct (code =? 402)%Z eqn:E402.
  - apply Z.eqb_eq in E402. intros He. inversion He; subst. reflexivity.
  - destruct (code =? 429)%Z eqn:E429.
    + apply Z.eqb_eq in E429.
      destruct (header_get h "Retry-After") as [s|].
      * destruct (int_of_str s); intros He; inversion He; subst. reflexivity.
      * intros He. inversion He; subst. reflexivity.
    + destruct (json_loads ebody) as [[| | | | | |d]|];
        intros He; inversion He; subst; reflexivity.
Qed.


(** X13. For the statuses 402 and 429 the body and the reason phrase of
    the response play no part: two such responses with the same headers
    give the same exception. *)
Theorem payment_and_rate_limit_ignore_body (u1 u2 : transport)
    (self : CryptoAPI) (endpoint method : string)
    (body : option (dict json)) (payment : option string) (code : Z)
    (msg1 msg2 : string) (h : list (string * string))
    (ebody1 ebody2 : string) :
  code = 402%Z \/ code = 429%Z ->
  u1 (build_request self endpoint method body payment) (timeout self)
  = HTTPError code msg1 h ebody1 ->
  u2 (build_request self endpoint method body payment) (timeout self)
  = HTTPError code msg2 h ebody2 ->
  _request u1 self endpoint method body payment
  = _request u2 self endpoint method body payment.
Proof.
  intros Hc H1 H2.
  rewrite (request_on_http_error _ _ _ _ _ _ _ _ _ _ H1).
  rewrite (request_on_http_error _ _ _ _ _ _ _ _ _ _ H2).
  destruct Hc as [-> | ->]; reflexivity.
Qed.

End RequestBehaviour.

(** ** Paths and single-parameter queries *)

Lemma unquote_plus_quoter_slash (c : ascii) (t : string) :
  unquote_plus (quoter "/" c ++ t) = String c (unquote_plus t).
Proof. each_byte c; reflexivity. Qed.

Lemma unquote_quote_slash (s : string) : unquote_plus (quote "/" s) = s.
Proof.
  unfold quote. induction s as [|c s IH]; simpl; [reflexivity|].
  now rewrite unquote_plus_quoter_slash, IH.
Qed.

Lemma string_app_inv_head (a x y : string) : a ++ x = a ++ y -> x = y.
Proof.
  induction a as [|c a IH]; simpl; intros H; [exact H|].
  inversion H. now apply IH.
Qed.

Lemma path_chars_exclude (c : ascii) (s : string) :
  path_char c = false -> all_chars path_char s = true ->
  mem_char c s = false.
Proof.
  intros Hc Hs. destruct (mem_char c s) eqn:E; [|reflexivity].
  rewrite (all_chars_forall _ _ _ Hs E) in Hc. discriminate.
Qed.

Lemma single_parameter_pairs (name value : string) :
  mem_char "=" name = false ->
  mem_char "&" name = false ->
  mem_char "&" value = false ->
  query_pairs ("?" ++ name ++ "=" ++ value) = [(name, value)].
Proof.
  intros Hn Ha Hv.
  change (query_pairs ("?" ++ name ++ "=" ++ value))
    with (map (partition_on "=") (split_on "&" (name ++ String "=" value))).
  rewrite split_on_absent.
  - simpl. now rewrite partition_on_cut.
  - rewrite mem_char_app. simpl. now rewrite Ha, Hv.
Qed.

Section Paths.
Context {RT : Runtime}.

(** X14. Path escaping loses nothing: percent-decoding [quote(id)] gives
    [id] back, so [get_coin] sends two ids to the same URL only when
    they are the same id. *)
Theorem coin_url_determines_id (self : CryptoAPI) (a b : string) :
  unquote_plus (quote "/" a) = a /\
  (req_url (build_request self ("/coin/" ++ quote "/" a) "GET" None None)
   = req_url (build_request self ("/coin/" ++ quote "/" b) "GET" None None)
   <-> a = b).
Proof.
  split; [apply unquote_quote_slash|].
  split; [|intros ->; reflexivity].
  simpl. intros H.
  apply string_app_inv_head in H.
  apply (string_app_inv_head "/api/v2/coin/") in H.
  rewrite <- (unquote_quote_slash a), <- (unquote_quote_slash b).
  now rewrite H.
Qed.

(** X15. The endpoint of [search] is [/search] followed by a query
    string with the single parameter [q], and that of [delete_webhook]
    is [/webhooks] followed by one with the single parameter [id]:
    whatever the text, its escaped form holds no [&], [=], [?] or [#]
    that could add a parameter or cut the query, and it decodes to the
    text. *)
Theorem search_single_parameter (u : transport) (self : CryptoAPI)
    (text : string) :
  search u self text
  = _request u self ("/search" ++ "?q=" ++ quote "/" text) "GET" None None /\
  delete_webhook u self text
  = _request u self ("/webhooks" ++ "?id=" ++ quote "/" text)
             "DELETE" None None /\
  query_pairs ("?q=" ++ quote "/" text) = [("q", quote "/" text)] /\
  query_pairs ("?id=" ++ quote "/" text) = [("id", quote "/" text)] /\
  mem_char "?" (quote "/" text) = false /\
  mem_char "#" (quote "/" text) = false /\
  unquote_plus (quote "/" text) = text.
Proof.
  pose proof (quote_slash_path_chars text) as Hp.
  assert (Hamp : mem_char "&" (quote "/" text) = false)
    by (apply path_chars_exclude; [reflexivity | exact Hp]).
  split; [reflexivity|]. split; [reflexivity|].
  split; [apply (single_parameter_pairs "q"); [reflexivity .. | exact Hamp]|].
  split; [apply (single_parameter_pairs "id"); [reflexivity .. | exact Hamp]|].
  split; [apply path_chars_exclude; [reflexivity | exact Hp]|].
  split; [apply path_chars_exclude; [reflexivity | exact Hp]|].
  apply unquote_quote_slash.
Qed.

(** X16. [get_ticker] drops a parameter only when it is [None]: with
    both absent it requests [/ticker] with no query string, and a given
    symbol, the empty string included, is sent as [symbol=...]. *)
Theorem ticker_endpoint (u : transport) (self : CryptoAPI)
    (symbol symbols : option string) :
  get_ticker u self symbol symbols
  = _request u self
      ("/ticker" ++
       match symbol, symbols with
       | None, None => ""
       | Some a, None => "?symbol=" ++ quote_plus "" a
       | None, Some b => "?symbols=" ++ quote_plus "" b
       | Some a, Some b =>
           "?symbol=" ++ quote_plus "" a ++ "&symbols=" ++ quote_plus "" b
       end)
      "GET" None None /\
  (_build_query [("symbol", opt_str symbol); ("symbols", opt_str symbols)] = ""
   <-> symbol = None /\ symbols = None) /\
  _build_query [("symbol", opt_str (Some "")); ("symbols", opt_str None)]
  = "?symbol=".
Proof.
  split; [|split; [|reflexivity]].
  - unfold get_ticker, _build_query, urlencode, encode_pair.
    destruct symbol as [a|], symbols as [b|];
      cbn -[quote_plus append]; reflexivity.
  - destruct symbol as [a|], symbols as [b|]; unfold _build_query; simpl.
    + split; [discriminate | intros [H _]; discriminate].
    + split; [discriminate | intros [H _]; discriminate].
    + split; [discriminate | intros [_ H]; discriminate].
    + split; [intros _; now split | reflexivity].
Qed.

(** X17. [get_top_coins(limit)] requests
    [/coins?page=1&per_page=<limit>&order=market_cap_desc] (no [ids], no
    [sparkline]) from a default client and returns the [data] entry of
    the result, the empty list when there is none; a result that is not
    an object raises [AttributeError]. *)
Theorem top_coins_request (u : transport) (limit : Z) :
  get_top_coins u limit
  = bind (fst (_request u (init None None 30)
                 ("/coins?page=1&per_page=" ++ str_int limit
                  ++ "&order=market_cap_desc")
                 "GET" None None))
         (fun result =>
            match result with
            | JDict d => Ok (dict_get d "data" (JList []))
            | _ => Raise AttributeError
            end).
Proof.
  unfold get_top_coins, get_coins.
  replace (get_coins_query get_coins_default_page limit
             get_coins_default_order None false)
    with ("?page=1&per_page=" ++ str_int limit ++ "&order=market_cap_desc").
  - reflexivity.
  - unfold get_coins_query, _build_query, urlencode, encode_pair.
    cbn -[quote_plus str_int append].
    rewrite (quote_plus_safe_text _ (str_int_safe limit)).
    repeat rewrite string_app_assoc. reflexivity.
Qed.

End Paths.

(** ** Bodies, headers and helpers *)

Section Bodies.
Context {RT : Runtime}.

(** X18. The POST operations always send JSON data: the bodies that
    [batch] (an empty list of requests included), [graphql] and
    [create_webhook] pass to the request primitive are never empty, so
    its test on the body never drops them. *)
Theorem post_bodies_are_sent (u : transport) (self : CryptoAPI)
    (requests : list json) (query url : string)
    (variables : option (dict json)) (events : list string)
    (secret : option string) :
  (exists d,
     batch u self requests = _request u self "/batch" "POST" (Some d) None /\
     req_data (build_request self "/batch" "POST" (Some d) None)
     = Some (json_dumps d) /\
     d = [("requests", JList requests)]) /\
  (exists d,
     graphql u self query variables
     = _request u self "/graphql" "POST" (Some d) None /\
     req_data (build_request self "/graphql" "POST" (Some d) None)
     = Some (json_dumps d) /\
     d = graphql_body query variables) /\
  (exists d,
     create_webhook u self url events secret
     = _request u self "/webhooks" "POST" (Some d) None /\
     req_data (build_request self "/webhooks" "POST" (Some d) None)
     = Some (json_dumps d) /\
     d = create_webhook_body url events secret).
Proof.
  split; [|split].
  - eexists. split; [reflexivity|]. split; reflexivity.
  - exists (graphql_body query variables).
    split; [reflexivity|]. split; [|reflexivity].
    unfold graphql_body. destruct variables as [[|kv v]|]; reflexivity.
  - exists (create_webhook_body url events secret).
    split; [reflexivity|]. split; [|reflexivity].
    unfold create_webhook_body, truthy_str.
    destruct secret as [s|]; [destruct (String.eqb s "")|]; reflexivity.
Qed.

(** X19. The body of [graphql] always holds the query under [query],
    and holds [variables] exactly when a non-empty mapping of variables
    is given, with that mapping as its value; its keys are distinct. *)
Theorem graphql_body_entries (query : string)
    (variables : option (dict json)) :
  let d := graphql_body query variables in
  dict_lookup d "query" = Some (JStr query) /\
  (forall v, dict_lookup d "variables" = Some v <->
             exists vars, variables = Some vars /\ vars <> []
                          /\ v = JDict vars) /\
  NoDup (map fst d).
Proof.
  unfold graphql_body.
  destruct variables as [[|kv vars]|]; simpl.
  - split; [reflexivity|]. split.
    + intros v. split; [discriminate|].
      intros [vars [Hv [Hne _]]]. inversion Hv; subst. congruence.
    + repeat constructor. simpl. tauto.
  - split; [reflexivity|]. split.
    + intros v. split.
      * intros H. inversion H; subst. exists (kv :: vars).
        split; [reflexivity|]. split; [discriminate | reflexivity].
      * intros [vars' [Hv [_ ->]]]. inversion Hv; subst. reflexivity.
    + repeat constructor; simpl; intuition discriminate.
  - split; [reflexivity|]. split.
    + intros v. split; [discriminate|].
      intros [vars [Hv _]]. discriminate.
    + repeat constructor. simpl. tauto.
Qed.

(** X20. The body of [create_webhook] always holds the URL and the
    events, in the order given, and holds [secret] exactly when a
    non-empty secret is given. *)
Theorem create_webhook_body_entries (url : string) (events : list string)
    (secret : option string) :
  let d := create_webhook_body url events secret in
  dict_lookup d "url" = Some (JStr url) /\
  dict_lookup d "events" = Some (JList (map JStr events)) /\
  (forall v, dict_lookup d "secret" = Some v <->
             exists s, secret = Some s /\ s <> "" /\ v = JStr s) /\
  NoDup (map fst d).
Proof.
  unfold create_webhook_body, truthy_str.
  destruct secret as [s|]; [destruct (String.eqb s "") eqn:E|]; simpl.
  - apply String.eqb_eq in E. subst s.
    split; [reflexivity|]. split; [reflexivity|]. split.
    + intros v. split; [discriminate|].
      intros [s [Hs [Hne _]]]. inversion Hs; subst. congruence.
    + repeat constructor; simpl; intuition discriminate.
  - apply String.eqb_neq in E.
    split; [reflexivity|]. split; [reflexivity|]. split.
    + intros v. split.
      * intros H. inversion H; subst. exists s.
        split; [reflexivity|]. split; [exact E | reflexivity].
      * intros [s' [Hs [_ ->]]]. inversion Hs; subst. reflexivity.
    + repeat constructor; simpl; intuition discriminate.
  - split; [reflexivity|]. split; [reflexivity|]. split.
    + intros v. split; [discriminate|].
      intros [s [Hs _]]. discriminate.
    + repeat constructor; simpl; intuition discriminate.
Qed.

(** X21. The headers of a request have distinct names, and there are
    three, four or five of them. *)
Theorem request_headers_distinct (self : CryptoAPI)
    (endpoint method : string) (body : option (dict json))
    (payment : option string) :
  let hs := req_headers (build_request self endpoint method body payment) in
  NoDup (map fst hs) /\ 3 <= List.length hs <= 5.
Proof.
  intros hs. subst hs. rewrite build_request_headers.
  unfold optional_header.
  destruct (api_key self) as [k|]; [destruct (String.eqb k "")|];
    (destruct payment as [p|]; [destruct (String.eqb p "")|]); simpl;
    (split; [repeat constructor; simpl; intuition discriminate
            | split; repeat constructor]).
Qed.

(** X22. The price helpers fall back to 0 only for a missing key: when
    [get_coin] returns an object without [data], or whose [data] is an
    object without [price], [get_bitcoin_price] returns 0; when [data]
    is [null] it raises [AttributeError]; and when [get_coin] raises, it
    raises the same exception. *)
Theorem bitcoin_price_fallbacks (u : transport) :
  (forall d,
     fst (get_coin u (init None None 30) "bitcoin") = Ok (JDict d) ->
     (dict_lookup d "data" = None -> get_bitcoin_price u = Ok (JInt 0)) /\
     (forall data,
        dict_lookup d "data" = Some (JDict data) ->
        get_bitcoin_price u
        = Ok (match dict_lookup data "price" with
              | Some p => p
              | None => JInt 0
              end)) /\
     (dict_lookup d "data" = Some JNull ->
      get_bitcoin_price u = Raise AttributeError)) /\
  (forall e,
     fst (get_coin u (init None None 30) "bitcoin") = Raise e ->
     get_bitcoin_price u = Raise e).
Proof.
  split.
  - intros d H. unfold get_bitcoin_price. rewrite H. simpl.
    unfold dict_get. split; [|split].
    + intros Hd. now rewrite Hd.
    + intros data Hd. now rewrite Hd.
    + intros Hd. now rewrite Hd.
  - intros e H. unfold get_bitcoin_price. now rewrite H.
Qed.

End Bodies.

(** X23. A constructed client never has an empty base URL: an override
    that is [None] or empty gives the default URL, any other override is
    taken as it is; and the client starts without a snapshot. *)
Theorem constructed_client (key url : option string) (tmo : Z) :
  base_url (init key url tmo) <> "" /\
  (truthy_str url = false -> base_url (init key url tmo) = BASE_URL) /\
  (forall x, url = Some x -> x <> "" -> base_url (init key url tmo) = x) /\
  init key (Some "") tmo = init key None tmo /\
  get_rate_limit_info (init key url tmo) = None.
Proof.
  unfold init, truthy_str.
  destruct url as [x|]; [destruct (String.eqb x "") eqn:E|]; simpl.
  - apply String.eqb_eq in E. subst x.
    repeat split; try discriminate. intros x Hx Hne. congruence.
  - apply String.eqb_neq in E.
    repeat split; try assumption; try discriminate.
    intros x' Hx _. congruence.
  - repeat split; try discriminate.
Qed.

(** ** Closed examples for the further properties *)

Lemma failed_request_leaves_client_witness :
  snd (_request (RT := Ref.runtime) offline demo_client
         "/global" "GET" None None) = demo_client /\
  exists e, fst (_request (RT := Ref.runtime) offline demo_client
                   "/global" "GET" None None) = Raise e.
Proof.
  apply (failed_request_leaves_client (RT := Ref.runtime) offline demo_client
           "/global" "GET" None None).
  intros status h rbody. discriminate.
Defined.

Lemma returned_value_is_decoded_body_witness :
  exists status h rbody self',
    plain_server
      (build_request (RT := Ref.runtime) demo_client "/global" "GET" None None)
      (timeout demo_client)
    = Response status h rbody /\
    Ref.loads rbody = Some (JDict []) /\
    read_rate_limit (RT := Ref.runtime) demo_client h = Ok self' /\
    snd (_request (RT := Ref.runtime) plain_server demo_client
           "/global" "GET" None None) = self'.
Proof.
  exact (returned_value_is_decoded_body (RT := Ref.runtime) plain_server
           demo_client "/global" "GET" None None (JDict []) eq_refl).
Defined.

Lemma malformed_rate_limit_raises_witness :
  _request (RT := Ref.runtime) garbled_server demo_client
    "/global" "GET" None None
  = (Raise ValueError, demo_client).
Proof.
  refine (malformed_rate_limit_raises (RT := Ref.runtime) garbled_server
            demo_client "/global" "GET" None None 200 _ "{}" "many" "100"
            eq_refl eq_refl _ eq_refl _ (or_introl eq_refl));
    discriminate.
Defined.

Lemma snapshot_stored_before_decoding_witness :
  _request (RT := Ref.runtime) html_ok_server demo_client
    "/global" "GET" None None
  = (Raise ValueError,
     set_last_rate_limit demo_client
       {| remaining := 7; limit := 100; reset_at := 0 |}).
Proof.
  refine (snapshot_stored_before_decoding (RT := Ref.runtime) html_ok_server
            demo_client "/global" "GET" None None 200 _ "<html>ok</html>"
            "7" "100" 7 100 eq_refl eq_refl _ eq_refl eq_refl _ eq_refl
            eq_refl eq_refl);
    discriminate.
Defined.

Lemma response_without_rate_limit_witness :
  _request (RT := Ref.runtime) plain_server demo_client
    "/global" "GET" None None
  = (Ok (JDict []), demo_client).
Proof.
  exact (response_without_rate_limit (RT := Ref.runtime) plain_server
           demo_client "/global" "GET" None None 200 _ "{}" eq_refl
           (or_introl eq_refl)).
Defined.

Lemma raised_status_is_http_status_witness :
  error_status (CryptoAPIError (JStr "Coin not found") (JStr "NOT_FOUND")
                               404 JNull) = 404%Z.
Proof.
  exact (raised_status_is_http_status (RT := Ref.runtime) missing_server
           demo_client "/coin/nope" "GET" None None 404 "Not Found" []
           not_found_body _ eq_refl eq_refl).
Defined.


Lemma payment_and_rate_limit_ignore_body_witness :
  _request (RT := Ref.runtime) busy_server demo_client
    "/global" "GET" None None
  = _request (RT := Ref.runtime) busy_server_verbose demo_client
      "/global" "GET" None None.
Proof.
  exact (payment_and_rate_limit_ignore_body (RT := Ref.runtime)
           busy_server busy_server_verbose demo_client "/global" "GET"
           None None 429 "Too Many Requests" "Slow Down" busy_headers
           "" not_found_body (or_intror eq_refl) eq_refl eq_refl).
Defined.

Lemma bitcoin_price_fallbacks_witness :
  get_bitcoin_price (RT := Ref.runtime) plain_server = Ok (JInt 0) /\
  get_bitcoin_price (RT := Ref.runtime) offline
  = Raise (SDK (CryptoAPIError (JStr "Connection error: timed out")
                               (JStr "CONNECTION_ERROR") 0 JNull)).
Proof.
  split.
  - exact (proj1 (proj1 (bitcoin_price_fallbacks (RT := Ref.runtime)
                           plain_server) [] eq_refl) eq_refl).
  - exact (proj2 (bitcoin_price_fallbacks (RT := Ref.runtime) offline)
                 _ eq_refl).
Defined.

(** ** Endpoints with parameters *)

Section ParameterEndpoints.
Context {RT : Runtime}.

(** X24. What the parameterised GET operations request:
    [get_historical] asks for [/historical/<escaped id>?days=<days>],
    [get_defi] for [/defi?limit=<limit>] followed by [&category=...]
    when a category is given, [get_gas] for [/gas?network=...] (the
    network is always sent), and [get_volatility] for [/volatility],
    followed by [?ids=...] when ids are given. *)
Theorem parameter_endpoints (u : transport) (self : CryptoAPI)
    (id network : string) (days limit : Z) (category ids : option string) :
  get_historical u self id days
  = _request u self ("/historical/" ++ quote "/" id ++ "?days=" ++ str_int days)
             "GET" None None /\
  get_defi u self limit category
  = _request u self
      ("/defi?limit=" ++ str_int limit ++
       match category with
       | Some c => "&category=" ++ quote_plus "" c
       | None => ""
       end)
      "GET" None None /\
  get_gas u self network
  = _request u self ("/gas?network=" ++ quote_plus "" network)
             "GET" None None /\
  get_volatility u self ids
  = _request u self
      ("/volatility" ++
       match ids with
       | Some s => "?ids=" ++ quote_plus "" s
       | None => ""
       end)
      "GET" None None.
Proof.
  pose proof (quote_plus_safe_text _ (str_int_safe days)) as Hd.
  pose proof (quote_plus_safe_text _ (str_int_safe limit)) as Hl.
  split; [|split; [|split]].
  - unfold get_historical, _build_query, urlencode, encode_pair.
    cbn -[quote quote_plus str_int append]. now rewrite Hd.
  - unfold get_defi, _build_query, urlencode, encode_pair.
    destruct category as [c|]; cbn -[quote_plus str_int append];
      rewrite Hl; repeat rewrite string_app_assoc;
      rewrite ?string_app_nil_r; reflexivity.
  - reflexivity.
  - destruct ids as [s|]; reflexivity.
Qed.

End ParameterEndpoints.
